(** * Calibration and characterization experiments: analysis quality rules,
      fit-guess preprocessing, half-angle circuits and frequency calibration.

    A shallow embedding of
    - [library/characterization/analysis/t1_analysis.py]
    - [library/characterization/analysis/t2ramsey_analysis.py]
    - [library/characterization/half_angle.py]
    - [library/calibration/frequency_cal.py]

    Python floats are IEEE-754 binary64 numbers and are embedded as the
    kernel's primitive floats, so [<], [abs], [+], [-], [*] and [/] below are
    the operations the interpreter performs (a comparison with a NaN operand
    is false).  Python dictionaries are finite maps; a missing key raises
    [KeyError]. *)

From Stdlib Require Import ZArith List String Bool Floats Lia.
From stdpp Require Import gmap strings list fin_maps.

Set Warnings "-inexact-float".

(** ** Python values, exceptions and the error monad *)

Module Py.

(** The dynamically typed values stored in experiment metadata and
    experiment options: strings and numbers, a number being a Python float. *)
Inductive pyval : Type :=
| PyFloat (f : float)
| PyStr (s : string).

(** The exceptions the embedded code can raise. *)
Inductive exn : Type :=
| KeyError (key : string)
| ValueError (msg : string)
| TypeError
| IndexError
| CalibrationError.

Inductive result (A : Type) : Type :=
| Ok (a : A)
| Raise (e : exn).
Arguments Ok {A} a.
Arguments Raise {A} e.

Definition rbind {A B} (r : result A) (k : A -> result B) : result B :=
  match r with
  | Ok a => k a
  | Raise e => Raise e
  end.

(** [d[key]] on a dictionary. *)
Definition getitem {V} (d : gmap string V) (key : string) : result V :=
  match d !! key with
  | Some v => Ok v
  | None => Raise (KeyError key)
  end.

(** Binary arithmetic on dynamically typed operands. *)
Definition py_add (a b : pyval) : result pyval :=
  match a, b with
  | PyFloat x, PyFloat y => Ok (PyFloat (x + y)%float)
  | PyStr x, PyStr y => Ok (PyStr (String.append x y))
  | _, _ => Raise TypeError
  end.

Definition py_sub (a b : pyval) : result pyval :=
  match a, b with
  | PyFloat x, PyFloat y => Ok (PyFloat (x - y)%float)
  | _, _ => Raise TypeError
  end.

(** [x * c] where [x] is known to be a float. *)
Definition py_mul_float (x : float) (c : pyval) : result float :=
  match c with
  | PyFloat y => Ok (x * y)%float
  | PyStr _ => Raise TypeError
  end.

(** [all(iterable)] over already evaluated booleans. *)
Definition all (criteria : list bool) : bool := forallb (fun b => b) criteria.

(** [x < y] on floats, as a proposition. *)
Definition flt (x y : float) : Prop := (x <? y)%float = true.

End Py.
Import Py.

#[global] Instance result_ret : MRet result := @Ok.
#[global] Instance result_bind : MBind result :=
  fun A B k r => rbind r k.

(** ** The curve-analysis data the strategies consume *)

Module curve.

(** Modelled from the spec: a fitted parameter of the curve-fit engine, its
    value and its standard error, [None] when the error could not be
    estimated. *)
Record FitVal : Type := mkFitVal {
  value : float;
  stderr : option float
}.

(** Modelled from the spec: the FitData container of the curve-fit engine,
    which is not part of these sources: a mapping from parameter name to
    (value, standard error), the reduced chi-squared and the degrees of
    freedom. *)
Record FitData : Type := mkFitData {
  popt : gmap string FitVal;
  reduced_chisq : float;
  dof : Z
}.

(** Modelled from the spec: [FitData.fitval(key)], looking a parameter up by
    name; an undefined parameter is an error. *)
Definition fitval (fit_data : FitData) (key : string) : result FitVal :=
  match popt fit_data !! key with
  | Some v => Ok v
  | None => Raise (ValueError key)
  end.

(** Modelled from the spec: FitOptions, the seed of the optimizer, which is
    not part of these sources: per parameter an initial guess and a pair of
    bounds.  [p0] holds an entry for each fit parameter, [None] while no
    initial guess has been supplied. *)
Record FitOptions : Type := mkFitOptions {
  p0 : gmap string (option float);
  bounds : gmap string (float * float)
}.

End curve.

(** ** T1 analysis *)

Module T1Analysis.
Import curve.

(** The analysis object.  Its only state read below is the dictionary of
    experiment options supplied by the experiment (conversion factor, unit),
    which the source obtains through [self._experiment_options()]. *)
Record t : Type := mk {
  _experiment_options : gmap string pyval
}.

Section Guesses.
Context {R : Type}.
(** [super()._generate_fit_guesses]: the default guess generation of the
    decay analysis, which receives the preprocessed options. *)
Variable super_generate_fit_guesses : FitOptions -> R.

Definition _generate_fit_guesses (self : t) (user_opt : FitOptions) : result R :=
  conversion_factor ← getitem (_experiment_options self) "conversion_factor";
  tau ← getitem (p0 user_opt) "tau";
  user_opt ← match tau with
             | Some tau =>
                 tau ← py_mul_float tau conversion_factor;
                 Ok {| p0 := <["tau" := Some tau]> (p0 user_opt);
                       bounds := bounds user_opt |}
             | None => Ok user_opt
             end;
  Ok (super_generate_fit_guesses user_opt).
End Guesses.

Definition _evaluate_quality (self : t) (fit_data : FitData) : result string :=
  amp ← fitval fit_data "amp";
  tau ← fitval fit_data "tau";
  base ← fitval fit_data "base";
  let criteria := [
     (reduced_chisq fit_data <? 3)%float;
     (abs (value amp - 1.0) <? 0.1)%float;
     (abs (value base) <? 0.1)%float;
     match stderr amp with None => true | Some e => (e <? 0.1)%float end;
     match stderr tau with None => true | Some e => (e <? value tau)%float end;
     match stderr base with None => true | Some e => (e <? 0.1)%float end
   ] in
  if all criteria then Ok "good" else Ok "bad".

End T1Analysis.

(** ** T2 Ramsey analysis *)

Module T2RamseyAnalysis.
Import curve.

Record t : Type := mk {
  _experiment_options : gmap string pyval
}.

Section Guesses.
Context {R : Type}.
(** [super()._generate_fit_guesses] of the damped-oscillation analysis. *)
Variable super_generate_fit_guesses : FitOptions -> R.

Definition _generate_fit_guesses (self : t) (user_opt : FitOptions) : result R :=
  conversion_factor ← getitem (_experiment_options self) "conversion_factor";
  tau ← getitem (p0 user_opt) "tau";
  user_opt ← match tau with
             | Some tau =>
                 tau ← py_mul_float tau conversion_factor;
                 Ok {| p0 := <["tau" := Some tau]> (p0 user_opt);
                       bounds := bounds user_opt |}
             | None => Ok user_opt
             end;
  Ok (super_generate_fit_guesses user_opt).
End Guesses.

Definition _evaluate_quality (self : t) (fit_data : FitData) : result string :=
  amp ← fitval fit_data "amp";
  tau ← fitval fit_data "tau";
  freq ← fitval fit_data "freq";
  let criteria := [
     (reduced_chisq fit_data <? 3)%float;
     match stderr amp with None => true | Some e => (e <? 0.1 * value amp)%float end;
     match stderr tau with None => true | Some e => (e <? 0.1 * value tau)%float end;
     match stderr freq with None => true | Some e => (e <? 0.1 * value freq)%float end
   ] in
  if all criteria then Ok "good" else Ok "bad".

End T2RamseyAnalysis.

(** ** Half-angle experiment *)

Module np.
(** [numpy.pi], the binary64 number nearest to pi. *)
Definition pi : float := 3.141592653589793%float.
End np.

(** The part of the external circuit container the generator uses: a
    circuit records the gate-appending calls made on it, in order, and
    carries a metadata dictionary. *)
Module QuantumCircuit.

Inductive Instruction : Type :=
| Rz (theta : float) (qubit : Z)
| SX (qubit : Z)
| Y (qubit : Z)
| MeasureAll.

(** The values of a circuit's metadata dictionary. *)
Inductive metaval : Type :=
| MStr (s : string)
| MInt (n : Z)
| MQubits (qs : list Z).

Record t : Type := mk {
  num_qubits : Z;
  data : list Instruction;
  metadata : gmap string metaval
}.

(** [QuantumCircuit(n)] *)
Definition new (n : Z) : t :=
  {| num_qubits := n; data := []; metadata := ∅ |}.

Definition append (i : Instruction) (circuit : t) : t :=
  {| num_qubits := num_qubits circuit;
     data := data circuit ++ [i];
     metadata := metadata circuit |}.

Definition rz (theta : float) (qubit : Z) : t -> t := append (Rz theta qubit).
Definition sx (qubit : Z) : t -> t := append (SX qubit).
Definition y (qubit : Z) : t -> t := append (Y qubit).
Definition measure_all : t -> t := append MeasureAll.

(** [circuit.metadata = m] *)
Definition set_metadata (m : gmap string metaval) (circuit : t) : t :=
  {| num_qubits := num_qubits circuit;
     data := data circuit;
     metadata := m |}.

End QuantumCircuit.

Module HalfAngle.
Import QuantumCircuit.

Record ParameterRepr : Type := mkParameterRepr {
  name : string;
  repr : string;
  unit : string
}.

Record ExperimentOptions : Type := mkExperimentOptions {
  repetitions : list Z
}.

Record TranspileOptions : Type := mkTranspileOptions {
  basis_gates : list string;
  inst_map : option string
}.

(** The attributes of the analysis options the experiment sets; [bounds]
    maps a fit parameter to its (lower, upper) pair. *)
Record AnalysisOptions : Type := mkAnalysisOptions {
  result_parameters : list ParameterRepr;
  normalization : bool;
  angle_per_gate : float;
  phase_offset : float;
  amp : float;
  bounds : gmap string (float * float)
}.

Record t : Type := mk {
  _type : string;
  physical_qubits : list Z;
  experiment_options : ExperimentOptions
}.

(** [range(n)] *)
Definition range (n : Z) : list Z := map Z.of_nat (seq 0 (Z.to_nat n)).

Definition _default_experiment_options : ExperimentOptions :=
  {| repetitions := range 15 |}.

Definition _default_transpile_options : TranspileOptions :=
  {| basis_gates := ["sx"; "rz"; "y"]; inst_map := None |}.

(** [options] is what [super()._default_analysis_options()] returns. *)
Definition _default_analysis_options (options : AnalysisOptions) : AnalysisOptions :=
  {| result_parameters := [mkParameterRepr "d_theta" "d_hac" "rad"];
     normalization := true;
     angle_per_gate := np.pi;
     phase_offset := (- np.pi / 2)%float;
     amp := 1.0%float;
     (* dict.update: the entries of the argument override *)
     bounds := {[ "d_theta" := ((- np.pi / 2)%float, (np.pi / 2)%float) ]}
               ∪ bounds options |}.

(** [_type] is the experiment type tag the base constructor assigns. *)
Definition __init__ (qubit : Z) (_type : string) : t :=
  {| _type := _type;
     physical_qubits := [qubit];
     experiment_options := _default_experiment_options |}.

Definition _pre_circuit : QuantumCircuit.t := QuantumCircuit.new 1.

Definition circuits (self : t) : list QuantumCircuit.t :=
  fold_left
    (fun circuits repetition =>
       let circuit := _pre_circuit in
       (* First ry gate *)
       let circuit := rz (np.pi / 2)%float 0 circuit in
       let circuit := sx 0 circuit in
       let circuit := rz (- np.pi / 2)%float 0 circuit in
       (* Error amplifying sequence *)
       let circuit :=
         fold_left (fun circuit _ => y 0 (sx 0 (sx 0 circuit)))
                   (range repetition) circuit in
       let circuit := sx 0 circuit in
       let circuit := measure_all circuit in
       let circuit :=
         set_metadata
           (<["unit" := MStr "repetition number"]>
            (<["xval" := MInt repetition]>
             (<["qubits" := MQubits (physical_qubits self)]>
              (<["experiment_type" := MStr (_type self)]> ∅))))
           circuit in
       circuits ++ [circuit])
    (repetitions (experiment_options self)) [].

End HalfAngle.

(** ** Experiment data and the calibration store *)

Module framework.

(** Modelled from the spec: a named analysis result written by an analysis
    into the experiment-data container (name, value with its standard
    error, quality label).  The container is not part of these sources. *)
Record AnalysisResult : Type := mkAnalysisResult {
  name : string;
  value : curve.FitVal;
  quality : string
}.

(** Modelled from the spec: the generic experiment-data container, with
    the identity and the qubits of the experiment it belongs to, its
    metadata dictionary and the stored analysis results. *)
Record ExperimentData : Type := mkExperimentData {
  experiment_id : string;
  qubits : list Z;
  metadata : gmap string pyval;
  analysis_results : list AnalysisResult
}.

(** [experiment_data.metadata = m] *)
Definition set_metadata (m : gmap string pyval) (d : ExperimentData) : ExperimentData :=
  {| experiment_id := experiment_id d;
     qubits := qubits d;
     metadata := m;
     analysis_results := analysis_results d |}.

End framework.

Module calibration_management.
Import framework.

(** Modelled from the spec: one entry of the calibration store, keyed by
    (parameter name, qubit tuple, group label) and attributable to the
    experiment data that produced it. *)
Record ParameterValue : Type := mkParameterValue {
  pv_param : string;
  pv_qubits : list Z;
  pv_group : pyval;
  pv_value : pyval;
  pv_exp_id : string
}.

(** Modelled from the spec: the calibration store is an append-only log of
    parameter values; it is the mutable object [self._cals] refers to. *)
Abbreviation Calibrations := (list ParameterValue).

(** Code that may raise and may read or write the calibration store.  An
    exception leaves the store as it was when it was raised. *)
Definition CalM (A : Type) : Type :=
  Calibrations -> result A * Calibrations.

Definition cal_ret {A} (a : A) : CalM A := fun cals => (Ok a, cals).

Definition cal_bind {A B} (m : CalM A) (k : A -> CalM B) : CalM B :=
  fun cals =>
    match m cals with
    | (Ok a, cals') => k a cals'
    | (Raise e, cals') => (Raise e, cals')
    end.

(** A computation that does not touch the store. *)
Definition lift {A} (r : result A) : CalM A := fun cals => (r, cals).

(** [seq[index]] with Python's negative indices. *)
Definition py_index {A} (l : list A) (index : Z) : result A :=
  let n := Z.of_nat (length l) in
  let i := if (index <? 0)%Z then (index + n)%Z else index in
  if (i <? 0)%Z then Raise IndexError
  else match l !! Z.to_nat i with
       | Some a => Ok a
       | None => Raise IndexError
       end.

Definition is_entry (param : string) (qubits : list Z) (group : string)
    (e : ParameterValue) : bool :=
  String.eqb (pv_param e) param
  && bool_decide (pv_qubits e = qubits)
  && match pv_group e with
     | PyStr g => String.eqb g group
     | PyFloat _ => false
     end.

(** Modelled from the spec: [get_parameter_value(name, qubits, group)]
    reads the current value, the one appended last under that key. *)
Definition get_parameter_value (param : string) (qubits : list Z)
    (group : string) : CalM pyval :=
  fun cals =>
    (match last (List.filter (is_entry param qubits group) cals) with
     | Some e => Ok (pv_value e)
     | None => Raise CalibrationError
     end, cals).

Module BaseUpdater.

(** Modelled from the spec: the value of the fit result named
    [param_name] stored in the experiment data, the [index]-th one when
    there are several. *)
Definition get_value (exp_data : ExperimentData) (param_name : string)
    (index : Z) : result float :=
  candidate ← py_index
    (List.filter (fun r => String.eqb (name r) param_name)
                 (analysis_results exp_data)) index;
  Ok (curve.value (value candidate)).

(** Modelled from the spec: [add_parameter_value(store, experiment_data,
    new_value, name, group)] appends a new entry, attributed to the
    experiment data. *)
Definition add_parameter_value (exp_data : ExperimentData) (value : pyval)
    (param : string) (group : pyval) : CalM unit :=
  fun cals =>
    (Ok tt,
     cals ++ [ {| pv_param := param;
                  pv_qubits := qubits exp_data;
                  pv_group := group;
                  pv_value := value;
                  pv_exp_id := experiment_id exp_data |} ]).

End BaseUpdater.

End calibration_management.
Import calibration_management.

#[global] Instance CalM_ret : MRet CalM := @cal_ret.
#[global] Instance CalM_bind : MBind CalM :=
  fun A B k m => cal_bind m k.

(** ** Frequency calibration *)

Module FrequencyCal.
Import framework.

Record ExperimentOptions : Type := mkExperimentOptions {
  delays : option (list float);
  unit : string;
  osc_freq : float;
  group : string;
  result_index : Z
}.

(** The experiment object.  The calibrations instance [self._cals] is the
    store threaded by [CalM]; the backend and the transpile options play
    no part in the calibration update. *)
Record t : Type := mk {
  _param_name : string;
  physical_qubits : list Z;
  experiment_options : ExperimentOptions;
  auto_update : bool
}.

(** [defaults] are the default experiment options of the base classes,
    which the constructor arguments override. *)
Definition __init__ (defaults : ExperimentOptions) (qubit : Z)
    (delays : option (list float)) (unit : string) (osc_freq : float)
    (auto_update : bool) : t :=
  {| _param_name := "qubit_lo_freq";
     physical_qubits := [qubit];
     experiment_options :=
       {| delays := delays;
          unit := unit;
          osc_freq := osc_freq;
          group := group defaults;
          result_index := result_index defaults |};
     auto_update := auto_update |}.

Definition _add_cal_metadata (self : t) (experiment_data : ExperimentData)
    : CalM ExperimentData :=
  param_val ← get_parameter_value (_param_name self) (physical_qubits self)
                                  (group (experiment_options self));
  let experiment_data :=
    set_metadata (<["cal_param_value" := param_val]> (metadata experiment_data))
                 experiment_data in
  let experiment_data :=
    set_metadata (<["cal_group" := PyStr (group (experiment_options self))]>
                    (metadata experiment_data))
                 experiment_data in
  let experiment_data :=
    set_metadata (<["osc_freq" := PyFloat (osc_freq (experiment_options self))]>
                    (metadata experiment_data))
                 experiment_data in
  mret experiment_data.

Definition update_calibrations (self : t) (experiment_data : ExperimentData)
    : CalM Datatypes.unit :=
  let result_index := result_index (experiment_options self) in
  osc_freq ← lift (getitem (metadata experiment_data) "osc_freq");
  group ← lift (getitem (metadata experiment_data) "cal_group");
  old_freq ← lift (getitem (metadata experiment_data) "cal_param_value");
  fit_freq ← lift (BaseUpdater.get_value experiment_data "freq" result_index);
  new_freq ← lift (sum ← py_add old_freq (PyFloat fit_freq);
                   py_sub sum osc_freq);
  BaseUpdater.add_parameter_value experiment_data new_freq
                                  (_param_name self) group.

(** Modelled from the spec: running an update-capable experiment, which is
    code of the calibration base class missing from these sources.  The
    pre-fit metadata is echoed into the experiment data, the fit runs
    ([analysis] is the execution and curve fit, which fill in the analysis
    results), and the update is committed only when [auto_update] is set. *)
Definition run (self : t) (analysis : ExperimentData -> ExperimentData)
    (experiment_data : ExperimentData) : CalM ExperimentData :=
  experiment_data ← _add_cal_metadata self experiment_data;
  let experiment_data := analysis experiment_data in
  if auto_update self
  then _ ← update_calibrations self experiment_data; mret experiment_data
  else mret experiment_data.

End FrequencyCal.

(** ** Specification-side definitions *)

(** The quality rules as the specification words them, to be compared with
    the criteria lists of the two [_evaluate_quality] methods. *)
Module QualitySpec.
Import curve.

(** A standard error is absent, or present and below [bound]. *)
Definition absent_or_below (err : option float) (bound : float) : Prop :=
  err = None ∨ ∃ e, err = Some e ∧ flt e bound.

Definition T1_good (fit_data : FitData) (amp tau base : FitVal) : Prop :=
  flt (reduced_chisq fit_data) 3
  ∧ flt (abs (value amp - 1.0)) 0.1
  ∧ flt (abs (value base)) 0.1
  ∧ absent_or_below (stderr amp) 0.1
  ∧ absent_or_below (stderr tau) (value tau)
  ∧ absent_or_below (stderr base) 0.1.

(** "has a relative standard error below 10% of its fitted value": the
    parameter has a standard error, and it is below a tenth of the value. *)
Definition stderr_below_tenth (v : FitVal) : Prop :=
  ∃ e, stderr v = Some e ∧ flt e (0.1 * value v).

Definition T2_good_as_stated (fit_data : FitData) (amp tau freq : FitVal) : Prop :=
  flt (reduced_chisq fit_data) 3
  ∧ stderr_below_tenth amp
  ∧ stderr_below_tenth tau
  ∧ stderr_below_tenth freq.

(** The rule with an absent standard error passing. *)
Definition T2_good (fit_data : FitData) (amp tau freq : FitVal) : Prop :=
  flt (reduced_chisq fit_data) 3
  ∧ absent_or_below (stderr amp) (0.1 * value amp)
  ∧ absent_or_below (stderr tau) (0.1 * value tau)
  ∧ absent_or_below (stderr freq) (0.1 * value freq).

(** The options handed to the default guess generation: [tau] scaled by
    the conversion factor when a guess [tau_guess] was supplied. *)
Definition with_scaled_tau (conversion_factor : float)
    (tau_guess : option float) (user_opt : FitOptions) : FitOptions :=
  match tau_guess with
  | Some tau =>
      {| p0 := <["tau" := Some (tau * conversion_factor)%float]> (p0 user_opt);
         bounds := bounds user_opt |}
  | None => user_opt
  end.

End QualitySpec.

(** Concrete inputs on which the statements below are exercised. *)
Module Samples.
Import curve.

Definition amp_val : FitVal := mkFitVal 1.02 (Some 0.01%float).
Definition tau_val : FitVal := mkFitVal 25e-6 None.
Definition base_val : FitVal := mkFitVal 0.01 (Some 0.02%float).
Definition freq_val : FitVal := mkFitVal 1e5 (Some 2e3%float).

(** A decay fit: amp and base with small errors, tau without an error. *)
Definition t1_fit : FitData :=
  {| popt := <["amp" := amp_val]> (<["tau" := tau_val]> (<["base" := base_val]> ∅));
     reduced_chisq := 1.1;
     dof := 10 |}.

(** A damped-oscillation fit whose tau has no standard error. *)
Definition t2_fit : FitData :=
  {| popt := <["amp" := amp_val]> (<["tau" := tau_val]> (<["freq" := freq_val]> ∅));
     reduced_chisq := 1.1;
     dof := 9 |}.

Definition t1_analysis : T1Analysis.t :=
  T1Analysis.mk (<["conversion_factor" := PyFloat 2e-7]> (<["unit" := PyStr "dt"]> ∅)).

Definition t2_analysis : T2RamseyAnalysis.t :=
  T2RamseyAnalysis.mk (<["conversion_factor" := PyFloat 2e-7]> (<["unit" := PyStr "dt"]> ∅)).

(** A half-angle experiment on qubit 0 with the default repetitions. *)
Definition half_angle : HalfAngle.t := HalfAngle.__init__ 0 "HalfAngle".

Definition cal_defaults : FrequencyCal.ExperimentOptions :=
  {| FrequencyCal.delays := None;
     FrequencyCal.unit := "s";
     FrequencyCal.osc_freq := 0;
     FrequencyCal.group := "default";
     FrequencyCal.result_index := (-1) |}.

(** A frequency calibration on qubit 0 that shifts the oscillation by 2 MHz. *)
Definition freq_cal : FrequencyCal.t :=
  FrequencyCal.__init__ cal_defaults 0 None "s" 2e6 true.

(** A store holding a 5 GHz qubit frequency for qubit 0. *)
Definition store : list ParameterValue :=
  [ {| pv_param := "qubit_lo_freq";
       pv_qubits := [0%Z];
       pv_group := PyStr "default";
       pv_value := PyFloat 5e9;
       pv_exp_id := "seed" |} ].

(** The fit result of a Ramsey XY experiment that measured 2.1 MHz. *)
Definition freq_result : framework.AnalysisResult :=
  {| framework.name := "freq";
     framework.value := mkFitVal 2.1e6 (Some 1e3%float);
     framework.quality := "good" |}.

(** Completed experiment data with the echoed calibration metadata. *)
Definition cal_data : framework.ExperimentData :=
  {| framework.experiment_id := "exp-1";
     framework.qubits := [0%Z];
     framework.metadata :=
       <["osc_freq" := PyFloat 2e6]>
         (<["cal_group" := PyStr "default"]>
           (<["cal_param_value" := PyFloat 5e9]> ∅));
     framework.analysis_results := [freq_result] |}.

(** Experiment data whose metadata lacks the calibration group. *)
Definition cal_data_no_group : framework.ExperimentData :=
  {| framework.experiment_id := "exp-2";
     framework.qubits := [0%Z];
     framework.metadata :=
       <["osc_freq" := PyFloat 2e6]> (<["cal_param_value" := PyFloat 5e9]> ∅);
     framework.analysis_results := [freq_result] |}.

(** Fresh experiment data, before metadata and fit. *)
Definition fresh_data : framework.ExperimentData :=
  {| framework.experiment_id := "exp-3";
     framework.qubits := [0%Z];
     framework.metadata := ∅;
     framework.analysis_results := [] |}.

(** A stand-in for execution and fit: it stores the 2.1 MHz result. *)
Definition fit (d : framework.ExperimentData) : framework.ExperimentData :=
  {| framework.experiment_id := framework.experiment_id d;
     framework.qubits := framework.qubits d;
     framework.metadata := framework.metadata d;
     framework.analysis_results := framework.analysis_results d ++ [freq_result] |}.

(** A user who supplies a guess for tau only. *)
Definition tau_only : FitOptions :=
  {| p0 := <["tau" := Some 125%float]> (<["amp" := None]> (<["base" := None]> ∅));
     bounds := ∅ |}.

End Samples.

(** The gate sequence of the half-angle experiment as the specification
    describes it. *)
Module HalfAngleSpec.
Import QuantumCircuit.

(** Ry(pi/2), realized as rz(pi/2), sx, rz(-pi/2). *)
Definition prefix : list Instruction :=
  [Rz (np.pi / 2)%float 0; SX 0; Rz (- np.pi / 2)%float 0].

(** The error-amplification block. *)
Definition block : list Instruction := [SX 0; SX 0; Y 0].

(** One sx gate and the measurement of all qubits. *)
Definition suffix : list Instruction := [SX 0; MeasureAll].

Definition sequence (n : nat) : list Instruction :=
  prefix ++ mjoin (replicate n block) ++ suffix.

(** The four metadata fields of the circuit of scan value [xval]. *)
Definition scan_metadata (experiment_type : string) (qubits : list Z)
    (xval : Z) : gmap string metaval :=
  <["unit" := MStr "repetition number"]>
    (<["xval" := MInt xval]>
      (<["qubits" := MQubits qubits]>
        (<["experiment_type" := MStr experiment_type]> ∅))).

Definition scan_circuit (experiment_type : string) (qubits : list Z)
    (xval : Z) : QuantumCircuit.t :=
  {| num_qubits := 1;
     data := sequence (Z.to_nat xval);
     metadata := scan_metadata experiment_type qubits xval |}.

End HalfAngleSpec.

(** The calibration update as a function of the experiment data. *)
Module FrequencyCalSpec.
Import framework FrequencyCal.

(** The metadata keys that carry the pre-fit calibration state. *)
Definition cal_metadata_keys : gset string :=
  {[ "cal_param_value"; "cal_group"; "osc_freq" ]}.

(** The entry a frequency update commits: old value plus fitted frequency
    minus the applied oscillation offset, under the echoed group. *)
Definition new_entry (self : FrequencyCal.t) (experiment_data : ExperimentData)
    : result ParameterValue :=
  osc_freq ← getitem (metadata experiment_data) "osc_freq";
  group ← getitem (metadata experiment_data) "cal_group";
  old_freq ← getitem (metadata experiment_data) "cal_param_value";
  fit_freq ← BaseUpdater.get_value experiment_data "freq"
               (result_index (experiment_options self));
  sum ← py_add old_freq (PyFloat fit_freq);
  new_freq ← py_sub sum osc_freq;
  Ok {| pv_param := _param_name self;
        pv_qubits := qubits experiment_data;
        pv_group := group;
        pv_value := new_freq;
        pv_exp_id := experiment_id experiment_data |}.

End FrequencyCalSpec.

(** ** Definitions for the further properties *)

(** The sign classes of binary64 numbers used to bound comparisons. *)
Module FloatSign.

(** A zero, a negative number, minus infinity, or a NaN. *)
Definition SFnonpos (x : spec_float) : Prop :=
  match x with
  | S754_zero _ | S754_nan => True
  | S754_infinity s | S754_finite s _ _ => s = true
  end.

End FloatSign.

Module QualityVariants.
Import curve.

(** The same fit with every standard error recorded as absent. *)
Definition without_stderr (fit_data : FitData) : FitData :=
  {| popt := (fun v => mkFitVal (value v) None) <$> popt fit_data;
     reduced_chisq := reduced_chisq fit_data;
     dof := dof fit_data |}.

(** [fit_data'] has the values of [fit_data], and each standard error of
    [fit_data] either kept or recorded as absent. *)
Definition fewer_errors (fit_data fit_data' : FitData) : Prop :=
  reduced_chisq fit_data' = reduced_chisq fit_data
  ∧ ∀ name v, popt fit_data !! name = Some v ->
      ∃ v', popt fit_data' !! name = Some v'
            ∧ value v' = value v
            ∧ (stderr v' = stderr v ∨ stderr v' = None).

End QualityVariants.

(** Reading the gates off a half-angle circuit. *)
Module HalfAngleGates.
Import QuantumCircuit.

(** The name of the gate an instruction applies; the measurement is not a
    gate. *)
Definition gate_name (i : Instruction) : option string :=
  match i with
  | Rz _ _ => Some "rz"
  | SX _ => Some "sx"
  | Y _ => Some "y"
  | MeasureAll => None
  end.

(** The qubit a gate acts on. *)
Definition gate_qubit (i : Instruction) : option Z :=
  match i with
  | Rz _ q | SX q | Y q => Some q
  | MeasureAll => None
  end.


(** A basis gate of the experiment's transpile options on qubit 0. *)
Definition is_basis_gate (i : Instruction) : Prop :=
  ∃ g, gate_name i = Some g
       ∧ In g (HalfAngle.basis_gates HalfAngle._default_transpile_options)
       ∧ gate_qubit i = Some 0%Z.

End HalfAngleGates.

(** The job-count arithmetic of [test/test_framework.py]. *)
Module test_framework.

(** The number of jobs [test_job_splitting] expects for [num_circuits]
    circuits on a backend accepting [max_experiments] circuits per job
    ([None]: no limit).  [//] and [%] are Python's floor division and
    modulo; a zero divisor raises, which is [None] here. *)
Definition expected_num_jobs (max_experiments : option Z) (num_circuits : Z)
    : option Z :=
  match max_experiments with
  | None => Some 1%Z
  | Some max_experiments =>
      if (max_experiments =? 0)%Z then None
      else
        let num_jobs := (num_circuits / max_experiments)%Z in
        if (num_circuits mod max_experiments =? 0)%Z
        then Some num_jobs
        else Some (num_jobs + 1)%Z
  end.

End test_framework.

(** Further concrete inputs. *)
Module MoreSamples.
Import curve Samples.

(** A decay fit whose tau came out negative. *)
Definition t1_fit_negative_tau : FitData :=
  {| popt := <["amp" := amp_val]>
               (<["tau" := mkFitVal (-25e-6) (Some 1e-6%float)]>
                 (<["base" := base_val]> ∅));
     reduced_chisq := 1.1;
     dof := 10 |}.

(** An oscillation fit whose frequency came out negative. *)
Definition negative_freq : FitVal := mkFitVal (-1e5) (Some 2e3%float).

Definition t2_fit_negative_freq : FitData :=
  {| popt := <["amp" := amp_val]>
               (<["tau" := tau_val]> (<["freq" := negative_freq]> ∅));
     reduced_chisq := 1.1;
     dof := 9 |}.

(** Analyses whose experiment options carry no conversion factor. *)
Definition t1_bare : T1Analysis.t := T1Analysis.mk (<["unit" := PyStr "s"]> ∅).
Definition t2_bare : T2RamseyAnalysis.t :=
  T2RamseyAnalysis.mk (<["unit" := PyStr "s"]> ∅).

(** Analyses whose conversion factor is a string. *)
Definition t1_text : T1Analysis.t :=
  T1Analysis.mk (<["conversion_factor" := PyStr "2e-7"]> ∅).
Definition t2_text : T2RamseyAnalysis.t :=
  T2RamseyAnalysis.mk (<["conversion_factor" := PyStr "2e-7"]> ∅).

(** A user who supplies no guess. *)
Definition no_guess : FitOptions :=
  {| p0 := <["tau" := None]> (<["amp" := None]> (<["base" := None]> ∅));
     bounds := ∅ |}.

(** Experiment data whose echoed old value is text. *)
Definition cal_data_text_value : framework.ExperimentData :=
  {| framework.experiment_id := "exp-4";
     framework.qubits := [0%Z];
     framework.metadata :=
       <["osc_freq" := PyFloat 2e6]>
         (<["cal_group" := PyStr "default"]>
           (<["cal_param_value" := PyStr "5e9"]> ∅));
     framework.analysis_results := [freq_result] |}.

(** The same experiment data after the calibration state was echoed from
    [store]. *)
Definition echoed_data : framework.ExperimentData :=
  {| framework.experiment_id := "exp-4";
     framework.qubits := [0%Z];
     framework.metadata :=
       <["osc_freq" := PyFloat 2e6]>
         (<["cal_group" := PyStr "default"]>
           (<["cal_param_value" := PyFloat 5e9]> ∅));
     framework.analysis_results := [freq_result] |}.

(** Experiment data with a fit result and no calibration metadata yet. *)
Definition fitted_data : framework.ExperimentData := fit fresh_data.

End MoreSamples.

(** ** Quality evaluation *)

Section Quality.
Import curve QualitySpec.

Lemma absent_or_below_true err bound :
  absent_or_below err bound ↔
  match err with None => true | Some e => (e <? bound)%float end = true.
Proof.
  unfold absent_or_below, flt. destruct err as [e|]; split.
  - intros [H | (e' & He & Hlt)]; [discriminate | congruence].
  - intros H. right. eauto.
  - reflexivity.
  - intros _. now left.
Qed.

Lemma all_cons b bs : all (b :: bs) = b && all bs.
Proof. reflexivity. Qed.

Lemma all_nil : all [] = true.
Proof. reflexivity. Qed.

Lemma label_good_iff (b : bool) :
  (if b then Ok "good" else Ok "bad") = Ok "good" ↔ b = true.
Proof. destruct b; split; intros H; try reflexivity; discriminate. Qed.

Lemma label_bad_iff (b : bool) :
  (if b then Ok "good" else Ok "bad") = Ok "bad" ↔ b = false.
Proof. destruct b; split; intros H; try reflexivity; discriminate. Qed.

Lemma T1_evaluate_quality_unfold self fit_data amp tau base :
  fitval fit_data "amp" = Ok amp ->
  fitval fit_data "tau" = Ok tau ->
  fitval fit_data "base" = Ok base ->
  T1Analysis._evaluate_quality self fit_data =
    if all [ (reduced_chisq fit_data <? 3)%float;
             (abs (value amp - 1.0) <? 0.1)%float;
             (abs (value base) <? 0.1)%float;
             match stderr amp with None => true | Some e => (e <? 0.1)%float end;
             match stderr tau with None => true | Some e => (e <? value tau)%float end;
             match stderr base with None => true | Some e => (e <? 0.1)%float end ]
    then Ok "good" else Ok "bad".
Proof.
  intros Ha Ht Hb. unfold T1Analysis._evaluate_quality.
  rewrite Ha. cbn. rewrite Ht. cbn. rewrite Hb. reflexivity.
Qed.

Lemma T1_good_all fit_data amp tau base :
  T1_good fit_data amp tau base ↔
  all [ (reduced_chisq fit_data <? 3)%float;
        (abs (value amp - 1.0) <? 0.1)%float;
        (abs (value base) <? 0.1)%float;
        match stderr amp with None => true | Some e => (e <? 0.1)%float end;
        match stderr tau with None => true | Some e => (e <? value tau)%float end;
        match stderr base with None => true | Some e => (e <? 0.1)%float end ] = true.
Proof.
  unfold T1_good. rewrite !absent_or_below_true. unfold flt.
  rewrite !all_cons, all_nil, !andb_true_iff. tauto.
Qed.

(** C1. On a fit holding amp, tau and base, [T1Analysis._evaluate_quality]
    answers "good" exactly when the reduced chi-squared is below 3,
    |amp - 1.0| < 0.1, |base| < 0.1, the standard error of amp is absent or
    below 0.1, that of tau is absent or below the value of tau, and that of
    base is absent or below 0.1; in every other case it answers "bad". *)
Theorem T1_evaluate_quality_good_iff self fit_data amp tau base :
  fitval fit_data "amp" = Ok amp ->
  fitval fit_data "tau" = Ok tau ->
  fitval fit_data "base" = Ok base ->
  (T1Analysis._evaluate_quality self fit_data = Ok "good"
     ↔ T1_good fit_data amp tau base)
  ∧ (¬ T1_good fit_data amp tau base
     -> T1Analysis._evaluate_quality self fit_data = Ok "bad").
Proof.
  intros Ha Ht Hb.
  rewrite (T1_evaluate_quality_unfold self _ _ _ _ Ha Ht Hb), T1_good_all.
  split.
  - apply label_good_iff.
  - intros Hn. apply label_bad_iff. now apply not_true_is_false.
Qed.

End Quality.

Section QualityT1Witness.
Import curve QualitySpec Samples.

Lemma T1_evaluate_quality_witness :
  fitval t1_fit "amp" = Ok amp_val
  ∧ fitval t1_fit "tau" = Ok tau_val
  ∧ fitval t1_fit "base" = Ok base_val
  ∧ (T1Analysis._evaluate_quality t1_analysis t1_fit = Ok "good"
       ↔ T1_good t1_fit amp_val tau_val base_val)
  ∧ (¬ T1_good t1_fit amp_val tau_val base_val
       -> T1Analysis._evaluate_quality t1_analysis t1_fit = Ok "bad").
Proof.
  assert (Ha : fitval t1_fit "amp" = Ok amp_val) by (vm_compute; reflexivity).
  assert (Ht : fitval t1_fit "tau" = Ok tau_val) by (vm_compute; reflexivity).
  assert (Hb : fitval t1_fit "base" = Ok base_val) by (vm_compute; reflexivity).
  repeat (split; [assumption|]).
  exact (T1_evaluate_quality_good_iff t1_analysis t1_fit _ _ _ Ha Ht Hb).
Defined.

End QualityT1Witness.

Section QualityT2.
Import curve QualitySpec Samples.

Lemma T2_evaluate_quality_unfold self fit_data amp tau freq :
  fitval fit_data "amp" = Ok amp ->
  fitval fit_data "tau" = Ok tau ->
  fitval fit_data "freq" = Ok freq ->
  T2RamseyAnalysis._evaluate_quality self fit_data =
    if all [ (reduced_chisq fit_data <? 3)%float;
             match stderr amp with None => true | Some e => (e <? 0.1 * value amp)%float end;
             match stderr tau with None => true | Some e => (e <? 0.1 * value tau)%float end;
             match stderr freq with None => true | Some e => (e <? 0.1 * value freq)%float end ]
    then Ok "good" else Ok "bad".
Proof.
  intros Ha Ht Hf. unfold T2RamseyAnalysis._evaluate_quality.
  rewrite Ha. cbn. rewrite Ht. cbn. rewrite Hf. reflexivity.
Qed.

Lemma T2_good_all fit_data amp tau freq :
  T2_good fit_data amp tau freq ↔
  all [ (reduced_chisq fit_data <? 3)%float;
        match stderr amp with None => true | Some e => (e <? 0.1 * value amp)%float end;
        match stderr tau with None => true | Some e => (e <? 0.1 * value tau)%float end;
        match stderr freq with None => true | Some e => (e <? 0.1 * value freq)%float end ] = true.
Proof.
  unfold T2_good. rewrite !absent_or_below_true. unfold flt.
  rewrite !all_cons, all_nil, !andb_true_iff. tauto.
Qed.

(** C3, as stated, fails: a fit whose tau has no standard error is judged
    "good", although tau has no standard error below a tenth of its value. *)
Lemma T2_quality_as_stated_fails :
  fitval t2_fit "amp" = Ok amp_val
  ∧ fitval t2_fit "tau" = Ok tau_val
  ∧ fitval t2_fit "freq" = Ok freq_val
  ∧ T2RamseyAnalysis._evaluate_quality t2_analysis t2_fit = Ok "good"
  ∧ ¬ T2_good_as_stated t2_fit amp_val tau_val freq_val.
Proof.
  repeat (split; [vm_compute; reflexivity|]).
  intros (_ & _ & (e & He & _) & _). discriminate He.
Qed.

(** C3, amended. On a fit holding amp, tau and freq,
    [T2RamseyAnalysis._evaluate_quality] answers "good" exactly when the
    reduced chi-squared is below 3 and, for each of amp, tau and freq, the
    standard error is absent or below 0.1 times the fitted value; in every
    other case it answers "bad". *)
Theorem T2_evaluate_quality_good_iff self fit_data amp tau freq :
  fitval fit_data "amp" = Ok amp ->
  fitval fit_data "tau" = Ok tau ->
  fitval fit_data "freq" = Ok freq ->
  (T2RamseyAnalysis._evaluate_quality self fit_data = Ok "good"
     ↔ T2_good fit_data amp tau freq)
  ∧ (¬ T2_good fit_data amp tau freq
     -> T2RamseyAnalysis._evaluate_quality self fit_data = Ok "bad").
Proof.
  intros Ha Ht Hf.
  rewrite (T2_evaluate_quality_unfold self _ _ _ _ Ha Ht Hf), T2_good_all.
  split.
  - apply label_good_iff.
  - intros Hn. apply label_bad_iff. now apply not_true_is_false.
Qed.

Lemma T2_evaluate_quality_witness :
  fitval t2_fit "amp" = Ok amp_val
  ∧ fitval t2_fit "tau" = Ok tau_val
  ∧ fitval t2_fit "freq" = Ok freq_val
  ∧ (T2RamseyAnalysis._evaluate_quality t2_analysis t2_fit = Ok "good"
       ↔ T2_good t2_fit amp_val tau_val freq_val)
  ∧ (¬ T2_good t2_fit amp_val tau_val freq_val
       -> T2RamseyAnalysis._evaluate_quality t2_analysis t2_fit = Ok "bad").
Proof.
  assert (Ha : fitval t2_fit "amp" = Ok amp_val) by (vm_compute; reflexivity).
  assert (Ht : fitval t2_fit "tau" = Ok tau_val) by (vm_compute; reflexivity).
  assert (Hf : fitval t2_fit "freq" = Ok freq_val) by (vm_compute; reflexivity).
  repeat (split; [assumption|]).
  exact (T2_evaluate_quality_good_iff t2_analysis t2_fit _ _ _ Ha Ht Hf).
Defined.

(** C7. Quality evaluation is a function of the fit data alone: whatever
    the state of the analysis object it is called on, and however often it
    is called, [_evaluate_quality] of [T1Analysis] and of
    [T2RamseyAnalysis] gives identical fit data the same label. *)
Theorem evaluate_quality_pure
    (self1 self2 : T1Analysis.t) (self1' self2' : T2RamseyAnalysis.t)
    (fit_data : FitData) :
  T1Analysis._evaluate_quality self1 fit_data
    = T1Analysis._evaluate_quality self2 fit_data
  ∧ T2RamseyAnalysis._evaluate_quality self1' fit_data
    = T2RamseyAnalysis._evaluate_quality self2' fit_data.
Proof. split; reflexivity. Qed.

End QualityT2.

(** ** Fit-guess preprocessing *)

Section FitGuesses.
Import curve QualitySpec Samples.

Lemma T1_generate_fit_guesses_eq {R} (super : FitOptions -> R) self user_opt
    conversion_factor tau_guess :
  T1Analysis._experiment_options self !! "conversion_factor"
    = Some (PyFloat conversion_factor) ->
  p0 user_opt !! "tau" = Some tau_guess ->
  T1Analysis._generate_fit_guesses super self user_opt
    = Ok (super (with_scaled_tau conversion_factor tau_guess user_opt)).
Proof.
  intros Hcf Htau. unfold T1Analysis._generate_fit_guesses, getitem.
  rewrite Hcf. cbn. rewrite Htau. cbn.
  destruct tau_guess as [tau|]; reflexivity.
Qed.

Lemma T2_generate_fit_guesses_eq {R} (super : FitOptions -> R) self user_opt
    conversion_factor tau_guess :
  T2RamseyAnalysis._experiment_options self !! "conversion_factor"
    = Some (PyFloat conversion_factor) ->
  p0 user_opt !! "tau" = Some tau_guess ->
  T2RamseyAnalysis._generate_fit_guesses super self user_opt
    = Ok (super (with_scaled_tau conversion_factor tau_guess user_opt)).
Proof.
  intros Hcf Htau. unfold T2RamseyAnalysis._generate_fit_guesses, getitem.
  rewrite Hcf. cbn. rewrite Htau. cbn.
  destruct tau_guess as [tau|]; reflexivity.
Qed.

Lemma with_scaled_tau_lookup conversion_factor tau_guess user_opt :
  p0 user_opt !! "tau" = Some tau_guess ->
  p0 (with_scaled_tau conversion_factor tau_guess user_opt) !! "tau"
    = Some ((fun tau => (tau * conversion_factor)%float) <$> tau_guess).
Proof.
  intros Htau. destruct tau_guess as [tau|]; cbn.
  - apply lookup_insert_eq.
  - exact Htau.
Qed.

Lemma with_scaled_tau_others conversion_factor tau_guess user_opt key :
  key ≠ "tau" ->
  p0 (with_scaled_tau conversion_factor tau_guess user_opt) !! key
    = p0 user_opt !! key.
Proof.
  intros Hne. destruct tau_guess as [tau|]; cbn.
  - now apply lookup_insert_ne.
  - reflexivity.
Qed.

Lemma with_scaled_tau_bounds conversion_factor tau_guess user_opt :
  bounds (with_scaled_tau conversion_factor tau_guess user_opt)
    = bounds user_opt.
Proof. destruct tau_guess; reflexivity. Qed.

(** C8. With a conversion factor in the experiment options and a [tau]
    entry in the user's initial guesses, [_generate_fit_guesses] of
    [T1Analysis] and of [T2RamseyAnalysis] hands to the default guess
    generation the user's options in which tau is the user's tau times the
    conversion factor when the user gave a tau guess, and is still unset
    when the user gave none; every other guess and the bounds are the
    user's, unchanged. *)
Theorem generate_fit_guesses_scales_tau {R} (super : FitOptions -> R)
    (self : T1Analysis.t) (self' : T2RamseyAnalysis.t)
    (user_opt : FitOptions) (conversion_factor : float)
    (tau_guess : option float) :
  T1Analysis._experiment_options self !! "conversion_factor"
    = Some (PyFloat conversion_factor) ->
  T2RamseyAnalysis._experiment_options self' !! "conversion_factor"
    = Some (PyFloat conversion_factor) ->
  p0 user_opt !! "tau" = Some tau_guess ->
  ∃ passed : FitOptions,
    T1Analysis._generate_fit_guesses super self user_opt = Ok (super passed)
    ∧ T2RamseyAnalysis._generate_fit_guesses super self' user_opt = Ok (super passed)
    ∧ T1Analysis._generate_fit_guesses (fun o => o) self user_opt = Ok passed
    ∧ T2RamseyAnalysis._generate_fit_guesses (fun o => o) self' user_opt = Ok passed
    ∧ p0 passed !! "tau"
        = Some (match tau_guess with
                | Some tau => Some (tau * conversion_factor)%float
                | None => None
                end)
    ∧ (∀ key, key ≠ "tau" -> p0 passed !! key = p0 user_opt !! key)
    ∧ bounds passed = bounds user_opt.
Proof.
  intros Hcf Hcf' Htau.
  exists (with_scaled_tau conversion_factor tau_guess user_opt).
  repeat split.
  - now apply T1_generate_fit_guesses_eq.
  - now apply T2_generate_fit_guesses_eq.
  - now apply (T1_generate_fit_guesses_eq (fun o => o)).
  - now apply (T2_generate_fit_guesses_eq (fun o => o)).
  - rewrite (with_scaled_tau_lookup _ _ _ Htau). now destruct tau_guess.
  - intros key Hne. now apply with_scaled_tau_others.
  - apply with_scaled_tau_bounds.
Qed.

Lemma generate_fit_guesses_scales_tau_witness :
  T1Analysis._experiment_options t1_analysis !! "conversion_factor"
    = Some (PyFloat 2e-7)
  ∧ T2RamseyAnalysis._experiment_options t2_analysis !! "conversion_factor"
    = Some (PyFloat 2e-7)
  ∧ p0 tau_only !! "tau" = Some (Some 125%float)
  ∧ ∃ passed : FitOptions,
    T1Analysis._generate_fit_guesses bounds t1_analysis tau_only = Ok (bounds passed)
    ∧ T2RamseyAnalysis._generate_fit_guesses bounds t2_analysis tau_only = Ok (bounds passed)
    ∧ T1Analysis._generate_fit_guesses (fun o => o) t1_analysis tau_only = Ok passed
    ∧ T2RamseyAnalysis._generate_fit_guesses (fun o => o) t2_analysis tau_only = Ok passed
    ∧ p0 passed !! "tau" = Some (Some (125 * 2e-7)%float)
    ∧ (∀ key, key ≠ "tau" -> p0 passed !! key = p0 tau_only !! key)
    ∧ bounds passed = bounds tau_only.
Proof.
  assert (H1 : T1Analysis._experiment_options t1_analysis !! "conversion_factor"
               = Some (PyFloat 2e-7)) by (vm_compute; reflexivity).
  assert (H2 : T2RamseyAnalysis._experiment_options t2_analysis !! "conversion_factor"
               = Some (PyFloat 2e-7)) by (vm_compute; reflexivity).
  assert (H3 : p0 tau_only !! "tau" = Some (Some 125%float))
    by (vm_compute; reflexivity).
  repeat (split; [assumption|]).
  exact (generate_fit_guesses_scales_tau bounds t1_analysis t2_analysis
           tau_only 2e-7%float (Some 125%float) H1 H2 H3).
Defined.

End FitGuesses.

(** ** Half-angle circuits and analysis options *)

Section HalfAngleCircuits.
Import QuantumCircuit HalfAngle HalfAngleSpec Samples.

Lemma fold_left_snoc {A B} (f : A -> B) (l : list A) (init : list B) :
  fold_left (fun acc x => acc ++ [f x]) l init = init ++ (f <$> l).
Proof.
  revert init. induction l as [|x l IH]; intros init; cbn.
  - now rewrite app_nil_r.
  - rewrite IH, <- app_assoc. reflexivity.
Qed.

Lemma length_range n : length (range n) = Z.to_nat n.
Proof. unfold range. now rewrite List.length_map, List.length_seq. Qed.

(** The inner loop appends one block per iteration. *)
Lemma amplify {A} (l : list A) (circuit : QuantumCircuit.t) :
  fold_left (fun circuit _ => y 0 (sx 0 (sx 0 circuit))) l circuit
  = {| num_qubits := num_qubits circuit;
       data := data circuit ++ mjoin (replicate (length l) block);
       metadata := metadata circuit |}.
Proof.
  revert circuit. induction l as [|x l IH]; intros circuit; cbn.
  - rewrite app_nil_r. now destruct circuit.
  - rewrite IH. cbn. f_equal. now rewrite <- !app_assoc.
Qed.

Lemma circuits_scan_circuits self :
  circuits self
  = scan_circuit (_type self) (physical_qubits self)
      <$> repetitions (experiment_options self).
Proof.
  unfold circuits. cbv zeta.
  rewrite (fold_left_snoc
             (fun repetition =>
                set_metadata
                  (scan_metadata (_type self) (physical_qubits self) repetition)
                  (measure_all
                     (sx 0
                        (fold_left (fun circuit _ => y 0 (sx 0 (sx 0 circuit)))
                           (range repetition)
                           (rz (- np.pi / 2)%float 0
                              (sx 0 (rz (np.pi / 2)%float 0 _pre_circuit)))))))).
  cbn [app]. apply list_fmap_ext. intros _ repetition _.
  rewrite amplify, length_range.
  unfold set_metadata, measure_all, sx, rz, append, _pre_circuit, new,
    scan_circuit, sequence, prefix, suffix.
  cbn [num_qubits data metadata app]. f_equal.
  now rewrite <- !app_assoc.
Qed.

(** C5. For every repetition count [n] of the [repetitions] option, the
    circuit [HalfAngle.circuits] generates for it consists of the fixed
    preparation rz(pi/2), sx, rz(-pi/2), then exactly [n] copies of the
    block sx, sx, y, then one sx gate and the measurement of all qubits. *)
Theorem circuits_gate_sequence (self : HalfAngle.t) (i : nat) (n : Z) :
  repetitions (experiment_options self) !! i = Some n ->
  (0 <= n)%Z ->
  ∃ (circuit : QuantumCircuit.t) (k : nat),
    circuits self !! i = Some circuit
    ∧ Z.of_nat k = n
    ∧ data circuit
      = [Rz (np.pi / 2)%float 0; SX 0; Rz (- np.pi / 2)%float 0]
        ++ mjoin (replicate k [SX 0; SX 0; Y 0])
        ++ [SX 0; MeasureAll].
Proof.
  intros Hi Hn. rewrite circuits_scan_circuits, list_lookup_fmap, Hi.
  eexists _, (Z.to_nat n). split; [reflexivity|]. split.
  - now apply Z2Nat.id.
  - reflexivity.
Qed.

Lemma circuits_gate_sequence_witness :
  repetitions (experiment_options half_angle) !! 3%nat = Some 3%Z
  ∧ (0 <= 3)%Z
  ∧ ∃ (circuit : QuantumCircuit.t) (k : nat),
      circuits half_angle !! 3%nat = Some circuit
      ∧ Z.of_nat k = 3%Z
      ∧ data circuit
        = [Rz (np.pi / 2)%float 0; SX 0; Rz (- np.pi / 2)%float 0]
          ++ mjoin (replicate k [SX 0; SX 0; Y 0])
          ++ [SX 0; MeasureAll].
Proof.
  assert (Hi : repetitions (experiment_options half_angle) !! 3%nat = Some 3%Z)
    by reflexivity.
  assert (Hn : (0 <= 3)%Z) by lia.
  repeat (split; [assumption|]).
  exact (circuits_gate_sequence half_angle 3 3 Hi Hn).
Defined.

(** C6. [HalfAngle.circuits] produces one circuit per entry of the
    [repetitions] option, in order, and the metadata of the circuit of a
    scan value carries the four fields: the experiment type, the physical
    qubits, [xval] equal to the scan value, and the unit
    "repetition number". *)
Theorem circuits_one_per_scan_point (self : HalfAngle.t) (i : nat) (n : Z) :
  repetitions (experiment_options self) !! i = Some n ->
  length (circuits self) = length (repetitions (experiment_options self))
  ∧ ∃ circuit : QuantumCircuit.t,
      circuits self !! i = Some circuit
      ∧ metadata circuit !! "experiment_type" = Some (MStr (_type self))
      ∧ metadata circuit !! "qubits" = Some (MQubits (physical_qubits self))
      ∧ metadata circuit !! "xval" = Some (MInt n)
      ∧ metadata circuit !! "unit" = Some (MStr "repetition number").
Proof.
  intros Hi. rewrite circuits_scan_circuits. split.
  - apply length_fmap.
  - rewrite list_lookup_fmap, Hi. eexists. split; [reflexivity|].
    cbn [scan_circuit metadata]. unfold scan_metadata.
    repeat split; by simplify_map_eq.
Qed.

Lemma circuits_one_per_scan_point_witness :
  repetitions (experiment_options half_angle) !! 14%nat = Some 14%Z
  ∧ length (circuits half_angle) = length (repetitions (experiment_options half_angle))
  ∧ ∃ circuit : QuantumCircuit.t,
      circuits half_angle !! 14%nat = Some circuit
      ∧ metadata circuit !! "experiment_type" = Some (MStr (_type half_angle))
      ∧ metadata circuit !! "qubits" = Some (MQubits (physical_qubits half_angle))
      ∧ metadata circuit !! "xval" = Some (MInt 14)
      ∧ metadata circuit !! "unit" = Some (MStr "repetition number").
Proof.
  assert (Hi : repetitions (experiment_options half_angle) !! 14%nat = Some 14%Z)
    by reflexivity.
  split; [assumption|].
  exact (circuits_one_per_scan_point half_angle 14 14 Hi).
Defined.

(** C9. Whatever the analysis defaults it starts from, HalfAngle's default
    analysis options bound the angle error [d_theta] to (-pi/2, pi/2), pi
    being [numpy.pi]; the bounds of the other parameters are left as they
    were. *)
Theorem default_analysis_options_bounds (options : AnalysisOptions) :
  bounds (_default_analysis_options options) !! "d_theta"
    = Some ((- np.pi / 2)%float, (np.pi / 2)%float)
  ∧ ((- np.pi / 2)%float, (np.pi / 2)%float)
    = ((-1.5707963267948966)%float, 1.5707963267948966%float)
  ∧ ∀ key, key ≠ "d_theta" ->
      bounds (_default_analysis_options options) !! key = bounds options !! key.
Proof.
  split; [|split].
  - cbn [_default_analysis_options bounds].
    apply lookup_union_Some_l, lookup_singleton_eq.
  - vm_compute. reflexivity.
  - intros key Hne. cbn [_default_analysis_options bounds].
    rewrite lookup_union_r; [reflexivity|].
    now apply lookup_singleton_ne.
Qed.

End HalfAngleCircuits.

(** ** Frequency calibration updates *)

Section FrequencyCalUpdates.
Import framework FrequencyCal FrequencyCalSpec Samples.

Example update_calibrations_sample :
  update_calibrations freq_cal cal_data store
  = (Ok tt,
     store ++ [ {| pv_param := "qubit_lo_freq";
                   pv_qubits := [0%Z];
                   pv_group := PyStr "default";
                   pv_value := PyFloat 5000100000;
                   pv_exp_id := "exp-1" |} ]).
Proof. vm_compute. reflexivity. Qed.

Example update_calibrations_no_group :
  update_calibrations freq_cal cal_data_no_group store
  = (Raise (KeyError "cal_group"), store).
Proof. vm_compute. reflexivity. Qed.

Example run_sample :
  snd (run freq_cal fit fresh_data store)
  = store ++ [ {| pv_param := "qubit_lo_freq";
                  pv_qubits := [0%Z];
                  pv_group := PyStr "default";
                  pv_value := PyFloat 5000100000;
                  pv_exp_id := "exp-3" |} ].
Proof. vm_compute. reflexivity. Qed.

(** The update is a write of [new_entry], or a failure without a write. *)
Lemma update_calibrations_new_entry self experiment_data cals :
  update_calibrations self experiment_data cals
  = match new_entry self experiment_data with
    | Ok e => (Ok tt, cals ++ [e])
    | Raise x => (Raise x, cals)
    end.
Proof.
  unfold update_calibrations, new_entry, mbind, CalM_bind, cal_bind,
    result_bind, lift.
  destruct (getitem (metadata experiment_data) "osc_freq") as [osc|]; cbn; [|reflexivity].
  destruct (getitem (metadata experiment_data) "cal_group") as [grp|]; cbn; [|reflexivity].
  destruct (getitem (metadata experiment_data) "cal_param_value") as [old|]; cbn; [|reflexivity].
  destruct (BaseUpdater.get_value experiment_data "freq" _) as [fit|]; cbn; [|reflexivity].
  destruct (py_add old (PyFloat fit)) as [sum|]; cbn; [|reflexivity].
  destruct (py_sub sum osc) as [new|]; cbn; reflexivity.
Qed.

Lemma get_parameter_value_snoc param qubits group cals e :
  is_entry param qubits group e = true ->
  get_parameter_value param qubits group (cals ++ [e])
  = (Ok (pv_value e), cals ++ [e]).
Proof.
  intros He. unfold get_parameter_value.
  rewrite List.filter_app. cbn [List.filter]. rewrite He.
  now rewrite last_snoc.
Qed.

(** C2. When the metadata of the experiment data holds the old calibration
    value, the calibration group and the applied oscillation frequency, and
    the fit result named "freq" is available,
    [FrequencyCal.update_calibrations] appends to the calibration store one
    value, old value + fitted frequency - oscillation frequency, which is
    from then on the current value of the parameter in that group. *)
Theorem update_calibrations_new_value (self : FrequencyCal.t)
    (experiment_data : ExperimentData) (cals : list ParameterValue)
    (old_value fitted_frequency applied_offset : float) (cal_group : string) :
  metadata experiment_data !! "cal_param_value" = Some (PyFloat old_value) ->
  metadata experiment_data !! "cal_group" = Some (PyStr cal_group) ->
  metadata experiment_data !! "osc_freq" = Some (PyFloat applied_offset) ->
  BaseUpdater.get_value experiment_data "freq"
    (result_index (experiment_options self)) = Ok fitted_frequency ->
  let new_value := PyFloat (old_value + fitted_frequency - applied_offset)%float in
  let cals' := cals ++ [ {| pv_param := _param_name self;
                            pv_qubits := qubits experiment_data;
                            pv_group := PyStr cal_group;
                            pv_value := new_value;
                            pv_exp_id := experiment_id experiment_data |} ] in
  update_calibrations self experiment_data cals = (Ok tt, cals')
  ∧ get_parameter_value (_param_name self) (qubits experiment_data) cal_group cals'
    = (Ok new_value, cals').
Proof.
  intros Hold Hgroup Hosc Hfit new_value cals'. split.
  - rewrite update_calibrations_new_entry. unfold new_entry, getitem.
    rewrite Hosc. cbn. rewrite Hgroup. cbn. rewrite Hold. cbn.
    rewrite Hfit. reflexivity.
  - subst cals'. apply get_parameter_value_snoc.
    unfold is_entry. cbn.
    rewrite !String.eqb_refl, bool_decide_eq_true_2; reflexivity.
Qed.

Lemma update_calibrations_new_value_witness :
  metadata cal_data !! "cal_param_value" = Some (PyFloat 5e9)
  ∧ metadata cal_data !! "cal_group" = Some (PyStr "default")
  ∧ metadata cal_data !! "osc_freq" = Some (PyFloat 2e6)
  ∧ BaseUpdater.get_value cal_data "freq" (result_index (experiment_options freq_cal))
    = Ok 2.1e6%float
  ∧ let new_value := PyFloat (5e9 + 2.1e6 - 2e6)%float in
    let cals' := store ++ [ {| pv_param := _param_name freq_cal;
                               pv_qubits := qubits cal_data;
                               pv_group := PyStr "default";
                               pv_value := new_value;
                               pv_exp_id := experiment_id cal_data |} ] in
    update_calibrations freq_cal cal_data store = (Ok tt, cals')
    ∧ get_parameter_value (_param_name freq_cal) (qubits cal_data) "default" cals'
      = (Ok new_value, cals').
Proof.
  assert (H1 : metadata cal_data !! "cal_param_value" = Some (PyFloat 5e9))
    by (vm_compute; reflexivity).
  assert (H2 : metadata cal_data !! "cal_group" = Some (PyStr "default"))
    by (vm_compute; reflexivity).
  assert (H3 : metadata cal_data !! "osc_freq" = Some (PyFloat 2e6))
    by (vm_compute; reflexivity).
  assert (H4 : BaseUpdater.get_value cal_data "freq"
                 (result_index (experiment_options freq_cal)) = Ok 2.1e6%float)
    by (vm_compute; reflexivity).
  repeat (split; [assumption|]).
  exact (update_calibrations_new_value freq_cal cal_data store
           5e9%float 2.1e6%float 2e6%float "default" H1 H2 H3 H4).
Defined.

(** Echoing the metadata reads the store and never writes it. *)
Lemma add_cal_metadata_store self experiment_data cals :
  snd (_add_cal_metadata self experiment_data cals) = cals.
Proof.
  unfold _add_cal_metadata, mbind, CalM_bind, cal_bind, get_parameter_value.
  now destruct (last _).
Qed.

(** Without auto-update, running is echoing the metadata and fitting. *)
Lemma run_no_update self analysis experiment_data cals :
  auto_update self = false ->
  run self analysis experiment_data cals
  = match _add_cal_metadata self experiment_data cals with
    | (Ok d, cals') => (Ok (analysis d), cals')
    | (Raise e, cals') => (Raise e, cals')
    end.
Proof.
  intros Hoff. unfold run. rewrite Hoff.
  unfold mbind, CalM_bind, cal_bind.
  now destruct (_add_cal_metadata self experiment_data cals) as [[d|e] cals'].
Qed.

(** C4. For a frequency calibration constructed with [auto_update] false,
    running the experiment leaves the calibration store, and so the value
    of every parameter in it, unchanged, while the fit still runs: when the
    metadata could be echoed, the run returns the fitted experiment data. *)
Theorem auto_update_false_leaves_store
    (defaults : FrequencyCal.ExperimentOptions) (qubit : Z)
    (delays : option (list float)) (unit : string) (osc_freq : float)
    (analysis : ExperimentData -> ExperimentData)
    (experiment_data : ExperimentData) (cals : list ParameterValue) :
  let self := FrequencyCal.__init__ defaults qubit delays unit osc_freq false in
  snd (run self analysis experiment_data cals) = cals
  ∧ (∀ param qubits group,
       get_parameter_value param qubits group
         (snd (run self analysis experiment_data cals))
       = get_parameter_value param qubits group cals)
  ∧ (∀ d, fst (_add_cal_metadata self experiment_data cals) = Ok d ->
          fst (run self analysis experiment_data cals) = Ok (analysis d)).
Proof.
  intros self.
  assert (Hrun := run_no_update self analysis experiment_data cals eq_refl).
  assert (Hstore := add_cal_metadata_store self experiment_data cals).
  destruct (_add_cal_metadata self experiment_data cals) as [[d|e] cals'];
    cbn in Hstore; subst cals'; rewrite Hrun; cbn.
  - repeat split. intros d' Hd. now inversion Hd.
  - repeat split. intros d' Hd. discriminate Hd.
Qed.

Example run_without_auto_update_sample :
  run (FrequencyCal.__init__ cal_defaults 0 None "s" 2e6 false) fit fresh_data store
  = (Ok (fit (set_metadata
                (<["osc_freq" := PyFloat 2e6]>
                   (<["cal_group" := PyStr "default"]>
                      (<["cal_param_value" := PyFloat 5e9]> ∅)))
                fresh_data)),
     store).
Proof. vm_compute. reflexivity. Qed.

Lemma cal_metadata_keys_elem key :
  key ∈ cal_metadata_keys
  ↔ key = "cal_param_value" ∨ key = "cal_group" ∨ key = "osc_freq".
Proof.
  unfold cal_metadata_keys.
  rewrite !elem_of_union, !elem_of_singleton. tauto.
Qed.

(** What [_add_cal_metadata] writes: the three keys and nothing else. *)
Lemma add_cal_metadata_keys self d d1 cals0 cals1 :
  _add_cal_metadata self d cals0 = (Ok d1, cals1) ->
  dom (metadata d1) = dom (metadata d) ∪ cal_metadata_keys
  ∧ ∀ key, key ∉ cal_metadata_keys -> metadata d1 !! key = metadata d !! key.
Proof.
  unfold _add_cal_metadata, mbind, CalM_bind, cal_bind, get_parameter_value.
  destruct (last _) as [e|]; [|discriminate].
  intros H. injection H as <- _. cbn [set_metadata metadata]. split.
  - rewrite !dom_insert_L. apply set_eq. intros key.
    rewrite !elem_of_union, cal_metadata_keys_elem, !elem_of_singleton. tauto.
  - intros key Hkey. rewrite cal_metadata_keys_elem in Hkey.
    rewrite !lookup_insert_ne; [reflexivity| | |]; intros Heq; subst key; tauto.
Qed.

(** The entry depends on the metadata through the three keys only. *)
Lemma new_entry_metadata self d d' :
  experiment_id d' = experiment_id d ->
  qubits d' = qubits d ->
  analysis_results d' = analysis_results d ->
  (∀ key, key ∈ cal_metadata_keys -> metadata d' !! key = metadata d !! key) ->
  new_entry self d' = new_entry self d.
Proof.
  intros Hid Hq Hres Hkeys.
  unfold new_entry, getitem, BaseUpdater.get_value.
  rewrite Hid, Hq, Hres.
  rewrite !Hkeys; [reflexivity| | |];
    apply cal_metadata_keys_elem; tauto.
Qed.

(** A missing key is a [KeyError] for the first key missing in the order
    the method reads them. *)
Lemma new_entry_missing self d key :
  key ∈ cal_metadata_keys ->
  metadata d !! key = None ->
  ∃ missing, missing ∈ cal_metadata_keys
             ∧ metadata d !! missing = None
             ∧ new_entry self d = Raise (KeyError missing).
Proof.
  intros Hkey Hnone. unfold new_entry, getitem.
  destruct (metadata d !! "osc_freq") as [osc|] eqn:Hosc.
  2: { exists "osc_freq". rewrite cal_metadata_keys_elem. auto. }
  destruct (metadata d !! "cal_group") as [grp|] eqn:Hgrp.
  2: { exists "cal_group". rewrite cal_metadata_keys_elem. auto. }
  destruct (metadata d !! "cal_param_value") as [old|] eqn:Hold.
  2: { exists "cal_param_value". rewrite cal_metadata_keys_elem. auto. }
  apply cal_metadata_keys_elem in Hkey as [-> | [-> | ->]]; congruence.
Qed.

(** C10. [FrequencyCal.update_calibrations] takes the old calibration
    value, the calibration group and the oscillation offset from the
    metadata keys "cal_param_value", "cal_group" and "osc_freq" of the
    experiment data: these are the keys [_add_cal_metadata] writes, the
    outcome depends on the metadata through them alone, and it does not
    depend on the content of the calibration store.  When one of the keys
    is missing, the update fails with a [KeyError] for a missing key and
    the store is as it was. *)
Theorem update_calibrations_reads_metadata (self : FrequencyCal.t)
    (experiment_data : ExperimentData) (cals : list ParameterValue) :
  (∀ d d1 cals0 cals1,
     _add_cal_metadata self d cals0 = (Ok d1, cals1) ->
     dom (metadata d1) = dom (metadata d) ∪ cal_metadata_keys
     ∧ ∀ key, key ∉ cal_metadata_keys -> metadata d1 !! key = metadata d !! key)
  ∧ (∀ other,
       experiment_id other = experiment_id experiment_data ->
       qubits other = qubits experiment_data ->
       analysis_results other = analysis_results experiment_data ->
       (∀ key, key ∈ cal_metadata_keys ->
               metadata other !! key = metadata experiment_data !! key) ->
       update_calibrations self other cals
       = update_calibrations self experiment_data cals)
  ∧ (∀ cals', ∃ outcome written,
       update_calibrations self experiment_data cals = (outcome, cals ++ written)
       ∧ update_calibrations self experiment_data cals' = (outcome, cals' ++ written))
  ∧ (∀ key, key ∈ cal_metadata_keys ->
            metadata experiment_data !! key = None ->
            ∃ missing, missing ∈ cal_metadata_keys
                       ∧ metadata experiment_data !! missing = None
                       ∧ update_calibrations self experiment_data cals
                         = (Raise (KeyError missing), cals)).
Proof.
  split; [|split; [|split]].
  - intros d d1 cals0 cals1. apply add_cal_metadata_keys.
  - intros other Hid Hq Hres Hkeys.
    rewrite !update_calibrations_new_entry.
    now rewrite (new_entry_metadata self _ _ Hid Hq Hres Hkeys).
  - intros cals'. rewrite !update_calibrations_new_entry.
    destruct (new_entry self experiment_data) as [e|x].
    + exists (Ok tt), [e]. split; reflexivity.
    + exists (Raise x), []. now rewrite !app_nil_r.
  - intros key Hkey Hnone.
    destruct (new_entry_missing self _ _ Hkey Hnone) as (missing & Hin & Hm & Hraise).
    exists missing. rewrite update_calibrations_new_entry, Hraise. auto.
Qed.

Lemma update_calibrations_reads_metadata_witness :
  "cal_group" ∈ cal_metadata_keys
  ∧ metadata cal_data_no_group !! "cal_group" = None
  ∧ ∃ missing, missing ∈ cal_metadata_keys
               ∧ metadata cal_data_no_group !! missing = None
               ∧ update_calibrations freq_cal cal_data_no_group store
                 = (Raise (KeyError missing), store).
Proof.
  assert (Hin : "cal_group" ∈ cal_metadata_keys)
    by (apply cal_metadata_keys_elem; tauto).
  assert (Hnone : metadata cal_data_no_group !! "cal_group" = None)
    by (vm_compute; reflexivity).
  repeat (split; [assumption|]).
  exact (proj2 (proj2 (proj2
           (update_calibrations_reads_metadata freq_cal cal_data_no_group store)))
           "cal_group" Hin Hnone).
Defined.

End FrequencyCalUpdates.


(** ** Facts about binary64 comparisons *)

Section FloatFacts.
Import FloatSign.

Lemma SFeqb_refl_false x : SFeqb x x = false -> x = S754_nan.
Proof.
  unfold SFeqb. destruct x as [s|s| |s m e]; cbn; try discriminate; try reflexivity.
  - destruct s; discriminate.
  - destruct s; rewrite Z.compare_refl, Pos.compare_cont_refl; discriminate.
Qed.

Lemma is_nan_Prim2SF x : is_nan x = true <-> Prim2SF x = S754_nan.
Proof.
  unfold is_nan. rewrite FloatAxioms.eqb_spec. split.
  - intros H. apply SFeqb_refl_false. now apply negb_true_iff.
  - intros ->. reflexivity.
Qed.

Lemma ltb_nan_l x y : is_nan x = true -> (x <? y)%float = false.
Proof. rewrite is_nan_Prim2SF, FloatAxioms.ltb_spec. intros ->. reflexivity. Qed.

Lemma ltb_nan_r x y : is_nan y = true -> (x <? y)%float = false.
Proof.
  rewrite is_nan_Prim2SF, FloatAxioms.ltb_spec. intros ->.
  unfold SFltb. now destruct (Prim2SF x) as [s|s| |s m e].
Qed.

Lemma is_nan_sub_l x y : is_nan x = true -> is_nan (x - y) = true.
Proof. rewrite !is_nan_Prim2SF, FloatAxioms.sub_spec. intros ->. reflexivity. Qed.

Lemma is_nan_abs x : is_nan x = true -> is_nan (abs x) = true.
Proof. rewrite !is_nan_Prim2SF, FloatAxioms.abs_spec. intros ->. reflexivity. Qed.

Lemma is_nan_mul_r x y : is_nan y = true -> is_nan (x * y) = true.
Proof.
  rewrite !is_nan_Prim2SF, FloatAxioms.mul_spec. intros ->.
  unfold SF64mul, SFmul. now destruct (Prim2SF x) as [s|s| |s m e].
Qed.

(** A true comparison has no NaN operand. *)
Lemma ltb_true_not_nan x y :
  (x <? y)%float = true -> is_nan x = false ∧ is_nan y = false.
Proof.
  intros H. split.
  - destruct (is_nan x) eqn:E; [|reflexivity].
    rewrite (ltb_nan_l x y E) in H. discriminate.
  - destruct (is_nan y) eqn:E; [|reflexivity].
    rewrite (ltb_nan_r x y E) in H. discriminate.
Qed.

(** Rounding keeps the sign it is given. *)
Lemma binary_round_aux_sign prec emax s m e l :
  match binary_round_aux prec emax s m e l with
  | S754_zero s' | S754_infinity s' | S754_finite s' _ _ => s' = s
  | S754_nan => True
  end.
Proof.
  unfold binary_round_aux.
  destruct (shr_fexp prec emax m e l) as [mrs' e'].
  destruct (shr_fexp prec emax _ e' loc_Exact) as [mrs'' e''].
  destruct (shr_m mrs''); try reflexivity.
  now destruct (Z.leb _ _).
Qed.

Lemma leb_zero_nonpos v : (v <=? 0)%float = true -> SFnonpos (Prim2SF v).
Proof.
  rewrite FloatAxioms.leb_spec.
  change (Prim2SF 0) with (S754_zero false).
  destruct (Prim2SF v) as [s|s| |s m e]; cbn; auto;
    destruct s; cbn; try discriminate; auto.
Qed.

(** A tenth of a non-positive number is not positive. *)
Lemma mul_tenth_nonpos v :
  (v <=? 0)%float = true -> SFnonpos (Prim2SF (0.1 * v)).
Proof.
  intros H. apply leb_zero_nonpos in H. rewrite FloatAxioms.mul_spec.
  change (Prim2SF 0.1) with (S754_finite false 7205759403792794 (-56)).
  destruct (Prim2SF v) as [s|s| |s m e]; cbn in *; auto.
  subst s.
  pose proof (binary_round_aux_sign prec emax true
     (Z.pos (7205759403792794 * m)) (-56 + e) loc_Exact) as Hs.
  unfold SF64mul, SFmul. cbn [xorb].
  destruct (binary_round_aux _ _ _ _ _ _); cbn; auto.
Qed.

(** A non-negative number is not below a non-positive one. *)
Lemma ltb_nonneg_nonpos e w :
  (0 <=? e)%float = true -> SFnonpos (Prim2SF w) -> (e <? w)%float = false.
Proof.
  rewrite FloatAxioms.leb_spec, FloatAxioms.ltb_spec.
  change (Prim2SF 0) with (S754_zero false).
  destruct (Prim2SF e) as [s|s| |s m x]; destruct (Prim2SF w) as [s'|s'| |s' m' x'];
    cbn; try discriminate; try reflexivity; intros H1 H2; subst;
    try (destruct s; try discriminate; reflexivity);
    try (destruct s'; try discriminate; reflexivity).
Qed.

End FloatFacts.

(** ** Further properties of the quality rules *)

Section QualityEdges.
Import curve QualitySpec QualityVariants Samples MoreSamples.

Lemma all_true_cons b bs : all (b :: bs) = true <-> b = true ∧ all bs = true.
Proof. rewrite all_cons. apply andb_true_iff. Qed.

Lemma all_false_head b bs : b = false -> all (b :: bs) = false.
Proof. intros ->. reflexivity. Qed.

Lemma all_false_tail b bs : all bs = false -> all (b :: bs) = false.
Proof. intros H. rewrite all_cons, H. apply andb_false_r. Qed.

(** A present standard error that passes is compared as a number. *)
Lemma stderr_criterion_not_nan (err : option float) bound e :
  match err with None => true | Some e => (e <? bound)%float end = true ->
  err = Some e ->
  is_nan e = false ∧ is_nan bound = false.
Proof. intros H ->. now apply ltb_true_not_nan. Qed.

(** X1. A T1 fit judged "good" has no NaN among the numbers the criteria
    compare: the reduced chi-squared, the values of amp and base, every
    standard error that is present, and the value of tau when its standard
    error is present. *)
Theorem T1_good_has_no_nan self fit_data amp tau base :
  fitval fit_data "amp" = Ok amp ->
  fitval fit_data "tau" = Ok tau ->
  fitval fit_data "base" = Ok base ->
  T1Analysis._evaluate_quality self fit_data = Ok "good" ->
  is_nan (reduced_chisq fit_data) = false
  ∧ is_nan (value amp) = false
  ∧ is_nan (value base) = false
  ∧ (∀ e, stderr amp = Some e -> is_nan e = false)
  ∧ (∀ e, stderr tau = Some e -> is_nan e = false ∧ is_nan (value tau) = false)
  ∧ (∀ e, stderr base = Some e -> is_nan e = false).
Proof.
  intros Ha Ht Hb.
  rewrite (T1_evaluate_quality_unfold self _ _ _ _ Ha Ht Hb), label_good_iff.
  rewrite !all_true_cons.
  intros (Hchi & Hamp & Hbase & Hea & Het & Heb & _).
  repeat split.
  - now apply ltb_true_not_nan in Hchi.
  - apply ltb_true_not_nan in Hamp as [Hn _].
    destruct (is_nan (value amp)) eqn:E; [|reflexivity].
    now rewrite (is_nan_abs _ (is_nan_sub_l _ 1.0 E)) in Hn.
  - apply ltb_true_not_nan in Hbase as [Hn _].
    destruct (is_nan (value base)) eqn:E; [|reflexivity].
    now rewrite (is_nan_abs _ E) in Hn.
  - intros e He. now destruct (stderr_criterion_not_nan _ _ _ Hea He).
  - now destruct (stderr_criterion_not_nan _ _ _ Het H).
  - now destruct (stderr_criterion_not_nan _ _ _ Het H).
  - intros e He. now destruct (stderr_criterion_not_nan _ _ _ Heb He).
Qed.

Lemma T1_good_has_no_nan_witness :
  fitval t1_fit "amp" = Ok amp_val
  ∧ fitval t1_fit "tau" = Ok tau_val
  ∧ fitval t1_fit "base" = Ok base_val
  ∧ T1Analysis._evaluate_quality t1_analysis t1_fit = Ok "good"
  ∧ is_nan (reduced_chisq t1_fit) = false
  ∧ is_nan (value amp_val) = false
  ∧ is_nan (value base_val) = false
  ∧ (∀ e, stderr amp_val = Some e -> is_nan e = false)
  ∧ (∀ e, stderr tau_val = Some e -> is_nan e = false ∧ is_nan (value tau_val) = false)
  ∧ (∀ e, stderr base_val = Some e -> is_nan e = false).
Proof.
  assert (Ha : fitval t1_fit "amp" = Ok amp_val) by (vm_compute; reflexivity).
  assert (Ht : fitval t1_fit "tau" = Ok tau_val) by (vm_compute; reflexivity).
  assert (Hb : fitval t1_fit "base" = Ok base_val) by (vm_compute; reflexivity).
  assert (Hg : T1Analysis._evaluate_quality t1_analysis t1_fit = Ok "good")
    by (vm_compute; reflexivity).
  repeat (split; [assumption|]).
  exact (T1_good_has_no_nan t1_analysis t1_fit _ _ _ Ha Ht Hb Hg).
Defined.

(** X2. A T2 Ramsey fit judged "good" has a reduced chi-squared that is not
    NaN, and for each of amp, tau and freq with a standard error, neither the
    error nor the value is NaN. *)
Theorem T2_good_has_no_nan self fit_data amp tau freq :
  fitval fit_data "amp" = Ok amp ->
  fitval fit_data "tau" = Ok tau ->
  fitval fit_data "freq" = Ok freq ->
  T2RamseyAnalysis._evaluate_quality self fit_data = Ok "good" ->
  is_nan (reduced_chisq fit_data) = false
  ∧ ∀ v e, v = amp ∨ v = tau ∨ v = freq ->
           stderr v = Some e ->
           is_nan e = false ∧ is_nan (value v) = false.
Proof.
  intros Ha Ht Hf.
  rewrite (T2_evaluate_quality_unfold self _ _ _ _ Ha Ht Hf), label_good_iff.
  rewrite !all_true_cons.
  intros (Hchi & Hea & Het & Hef & _).
  split.
  - now apply ltb_true_not_nan in Hchi.
  - assert (Hone : ∀ v e,
        match stderr v with None => true | Some e => (e <? 0.1 * value v)%float end = true ->
        stderr v = Some e -> is_nan e = false ∧ is_nan (value v) = false).
    { intros v e Hc He.
      destruct (stderr_criterion_not_nan _ _ _ Hc He) as [H1 H2]. split; [exact H1|].
      destruct (is_nan (value v)) eqn:E; [|reflexivity].
      now rewrite (is_nan_mul_r 0.1 _ E) in H2. }
    intros v e [-> | [-> | ->]]; now apply Hone.
Qed.

Lemma T2_good_has_no_nan_witness :
  fitval t2_fit "amp" = Ok amp_val
  ∧ fitval t2_fit "tau" = Ok tau_val
  ∧ fitval t2_fit "freq" = Ok freq_val
  ∧ T2RamseyAnalysis._evaluate_quality t2_analysis t2_fit = Ok "good"
  ∧ is_nan (reduced_chisq t2_fit) = false
  ∧ ∀ v e, v = amp_val ∨ v = tau_val ∨ v = freq_val ->
           stderr v = Some e ->
           is_nan e = false ∧ is_nan (value v) = false.
Proof.
  assert (Ha : fitval t2_fit "amp" = Ok amp_val) by (vm_compute; reflexivity).
  assert (Ht : fitval t2_fit "tau" = Ok tau_val) by (vm_compute; reflexivity).
  assert (Hf : fitval t2_fit "freq" = Ok freq_val) by (vm_compute; reflexivity).
  assert (Hg : T2RamseyAnalysis._evaluate_quality t2_analysis t2_fit = Ok "good")
    by (vm_compute; reflexivity).
  repeat (split; [assumption|]).
  exact (T2_good_has_no_nan t2_analysis t2_fit _ _ _ Ha Ht Hf Hg).
Defined.

(** X3. A T1 fit whose tau is zero or negative and has a non-negative
    standard error is judged "bad", whatever the other fit results. *)
Theorem T1_nonpositive_tau_bad self fit_data amp tau base e :
  fitval fit_data "amp" = Ok amp ->
  fitval fit_data "tau" = Ok tau ->
  fitval fit_data "base" = Ok base ->
  (value tau <=? 0)%float = true ->
  stderr tau = Some e ->
  (0 <=? e)%float = true ->
  T1Analysis._evaluate_quality self fit_data = Ok "bad".
Proof.
  intros Ha Ht Hb Hv He Hpos.
  rewrite (T1_evaluate_quality_unfold self _ _ _ _ Ha Ht Hb), label_bad_iff.
  do 4 apply all_false_tail. apply all_false_head.
  rewrite He. apply ltb_nonneg_nonpos; [exact Hpos|].
  now apply leb_zero_nonpos.
Qed.

Lemma T1_nonpositive_tau_bad_witness :
  fitval t1_fit_negative_tau "amp" = Ok amp_val
  ∧ fitval t1_fit_negative_tau "tau" = Ok (mkFitVal (-25e-6) (Some 1e-6%float))
  ∧ fitval t1_fit_negative_tau "base" = Ok base_val
  ∧ (value (mkFitVal (-25e-6) (Some 1e-6%float)) <=? 0)%float = true
  ∧ stderr (mkFitVal (-25e-6) (Some 1e-6%float)) = Some 1e-6%float
  ∧ (0 <=? 1e-6)%float = true
  ∧ T1Analysis._evaluate_quality t1_analysis t1_fit_negative_tau = Ok "bad".
Proof.
  assert (Ha : fitval t1_fit_negative_tau "amp" = Ok amp_val)
    by (vm_compute; reflexivity).
  assert (Ht : fitval t1_fit_negative_tau "tau"
               = Ok (mkFitVal (-25e-6) (Some 1e-6%float)))
    by (vm_compute; reflexivity).
  assert (Hb : fitval t1_fit_negative_tau "base" = Ok base_val)
    by (vm_compute; reflexivity).
  assert (Hv : (value (mkFitVal (-25e-6) (Some 1e-6%float)) <=? 0)%float = true)
    by (vm_compute; reflexivity).
  assert (He : stderr (mkFitVal (-25e-6) (Some 1e-6%float)) = Some 1e-6%float)
    by reflexivity.
  assert (Hp : (0 <=? 1e-6)%float = true) by (vm_compute; reflexivity).
  repeat (split; [assumption|]).
  exact (T1_nonpositive_tau_bad t1_analysis t1_fit_negative_tau _ _ _ _
           Ha Ht Hb Hv He Hp).
Defined.

(** X4. A T2 Ramsey fit in which amp, tau or freq has a value that is zero
    or negative together with a non-negative standard error is judged "bad":
    the error is compared with a tenth of the signed value, so a negative
    frequency or amplitude never passes. *)
Theorem T2_nonpositive_value_bad self fit_data amp tau freq v e :
  fitval fit_data "amp" = Ok amp ->
  fitval fit_data "tau" = Ok tau ->
  fitval fit_data "freq" = Ok freq ->
  v = amp ∨ v = tau ∨ v = freq ->
  (value v <=? 0)%float = true ->
  stderr v = Some e ->
  (0 <=? e)%float = true ->
  T2RamseyAnalysis._evaluate_quality self fit_data = Ok "bad".
Proof.
  intros Ha Ht Hf Hv Hneg He Hpos.
  rewrite (T2_evaluate_quality_unfold self _ _ _ _ Ha Ht Hf), label_bad_iff.
  assert (Hc : match stderr v with
               | None => true
               | Some e => (e <? 0.1 * value v)%float
               end = false).
  { rewrite He. apply ltb_nonneg_nonpos; [exact Hpos|].
    now apply mul_tenth_nonpos. }
  destruct Hv as [-> | [-> | ->]].
  - apply all_false_tail, all_false_head, Hc.
  - do 2 apply all_false_tail. apply all_false_head, Hc.
  - do 3 apply all_false_tail. apply all_false_head, Hc.
Qed.

Lemma T2_nonpositive_value_bad_witness :
  fitval t2_fit_negative_freq "amp" = Ok amp_val
  ∧ fitval t2_fit_negative_freq "tau" = Ok tau_val
  ∧ fitval t2_fit_negative_freq "freq" = Ok negative_freq
  ∧ (negative_freq = amp_val ∨ negative_freq = tau_val ∨ negative_freq = negative_freq)
  ∧ (value negative_freq <=? 0)%float = true
  ∧ stderr negative_freq = Some 2e3%float
  ∧ (0 <=? 2e3)%float = true
  ∧ T2RamseyAnalysis._evaluate_quality t2_analysis t2_fit_negative_freq = Ok "bad".
Proof.
  assert (Ha : fitval t2_fit_negative_freq "amp" = Ok amp_val)
    by (vm_compute; reflexivity).
  assert (Ht : fitval t2_fit_negative_freq "tau" = Ok tau_val)
    by (vm_compute; reflexivity).
  assert (Hf : fitval t2_fit_negative_freq "freq" = Ok negative_freq)
    by (vm_compute; reflexivity).
  assert (Hv : negative_freq = amp_val ∨ negative_freq = tau_val
               ∨ negative_freq = negative_freq) by (right; right; reflexivity).
  assert (Hn : (value negative_freq <=? 0)%float = true)
    by (vm_compute; reflexivity).
  assert (He : stderr negative_freq = Some 2e3%float) by reflexivity.
  assert (Hp : (0 <=? 2e3)%float = true) by (vm_compute; reflexivity).
  repeat (split; [assumption|]).
  exact (T2_nonpositive_value_bad t2_analysis t2_fit_negative_freq _ _ _ _ _
           Ha Ht Hf Hv Hn He Hp).
Defined.

End QualityEdges.

(** ** Standard errors that are absent never block *)

Section QualityMonotone.
Import curve QualitySpec QualityVariants Samples MoreSamples.

Lemma T1_label_parameters self fit_data label :
  T1Analysis._evaluate_quality self fit_data = Ok label ->
  ∃ amp tau base,
    fitval fit_data "amp" = Ok amp
    ∧ fitval fit_data "tau" = Ok tau
    ∧ fitval fit_data "base" = Ok base.
Proof.
  unfold T1Analysis._evaluate_quality.
  destruct (fitval fit_data "amp") as [amp|]; cbn; [|discriminate].
  destruct (fitval fit_data "tau") as [tau|]; cbn; [|discriminate].
  destruct (fitval fit_data "base") as [base|]; cbn; [|discriminate].
  intros _. eauto 7.
Qed.

Lemma T2_label_parameters self fit_data label :
  T2RamseyAnalysis._evaluate_quality self fit_data = Ok label ->
  ∃ amp tau freq,
    fitval fit_data "amp" = Ok amp
    ∧ fitval fit_data "tau" = Ok tau
    ∧ fitval fit_data "freq" = Ok freq.
Proof.
  unfold T2RamseyAnalysis._evaluate_quality.
  destruct (fitval fit_data "amp") as [amp|]; cbn; [|discriminate].
  destruct (fitval fit_data "tau") as [tau|]; cbn; [|discriminate].
  destruct (fitval fit_data "freq") as [freq|]; cbn; [|discriminate].
  intros _. eauto 7.
Qed.

Lemma fewer_errors_fitval fit_data fit_data' name v :
  fewer_errors fit_data fit_data' ->
  fitval fit_data name = Ok v ->
  ∃ v', fitval fit_data' name = Ok v'
        ∧ value v' = value v
        ∧ (stderr v' = stderr v ∨ stderr v' = None).
Proof.
  intros [_ Hall]. unfold fitval.
  destruct (popt fit_data !! name) as [w|] eqn:Hw; [|discriminate].
  intros [= ->]. destruct (Hall _ _ Hw) as (v' & Hv' & Hval & Herr).
  exists v'. now rewrite Hv'.
Qed.

Lemma criterion_fewer_errors (err err' : option float) bound :
  match err with None => true | Some e => (e <? bound)%float end = true ->
  err' = err ∨ err' = None ->
  match err' with None => true | Some e => (e <? bound)%float end = true.
Proof. intros H [-> | ->]; [exact H | reflexivity]. Qed.

Lemma fewer_errors_without_stderr fit_data :
  fewer_errors fit_data (without_stderr fit_data).
Proof.
  split; [reflexivity|]. intros name v Hv. cbn.
  rewrite lookup_fmap, Hv. cbn. eexists. split; [reflexivity|]. cbn. auto.
Qed.

(** X5. Recording standard errors as absent never turns a good fit into a
    bad one: if a fit is judged "good" by [T1Analysis] (or by
    [T2RamseyAnalysis]), so is the fit with the same values and reduced
    chi-squared in which any of the standard errors are absent. *)
Theorem fewer_errors_keep_good (self : T1Analysis.t) (self' : T2RamseyAnalysis.t)
    (fit_data fit_data' : FitData) :
  fewer_errors fit_data fit_data' ->
  (T1Analysis._evaluate_quality self fit_data = Ok "good" ->
   T1Analysis._evaluate_quality self fit_data' = Ok "good")
  ∧ (T2RamseyAnalysis._evaluate_quality self' fit_data = Ok "good" ->
     T2RamseyAnalysis._evaluate_quality self' fit_data' = Ok "good").
Proof.
  intros Hfew. pose proof Hfew as [Hchi _]. split; intros Hgood.
  - destruct (T1_label_parameters _ _ _ Hgood) as (amp & tau & base & Ha & Ht & Hb).
    destruct (fewer_errors_fitval _ _ _ _ Hfew Ha) as (amp' & Ha' & Hva & Hea).
    destruct (fewer_errors_fitval _ _ _ _ Hfew Ht) as (tau' & Ht' & Hvt & Het).
    destruct (fewer_errors_fitval _ _ _ _ Hfew Hb) as (base' & Hb' & Hvb & Heb).
    rewrite (T1_evaluate_quality_unfold self _ _ _ _ Ha Ht Hb), label_good_iff in Hgood.
    rewrite (T1_evaluate_quality_unfold self _ _ _ _ Ha' Ht' Hb'), label_good_iff.
    rewrite !all_true_cons in *. rewrite Hchi, Hva, Hvt, Hvb.
    destruct Hgood as (H1 & H2 & H3 & H4 & H5 & H6 & H7).
    repeat split; try assumption.
    + exact (criterion_fewer_errors _ _ _ H4 Hea).
    + exact (criterion_fewer_errors _ _ _ H5 Het).
    + exact (criterion_fewer_errors _ _ _ H6 Heb).
  - destruct (T2_label_parameters _ _ _ Hgood) as (amp & tau & freq & Ha & Ht & Hf).
    destruct (fewer_errors_fitval _ _ _ _ Hfew Ha) as (amp' & Ha' & Hva & Hea).
    destruct (fewer_errors_fitval _ _ _ _ Hfew Ht) as (tau' & Ht' & Hvt & Het).
    destruct (fewer_errors_fitval _ _ _ _ Hfew Hf) as (freq' & Hf' & Hvf & Hef).
    rewrite (T2_evaluate_quality_unfold self' _ _ _ _ Ha Ht Hf), label_good_iff in Hgood.
    rewrite (T2_evaluate_quality_unfold self' _ _ _ _ Ha' Ht' Hf'), label_good_iff.
    rewrite !all_true_cons in *. rewrite Hchi, Hva, Hvt, Hvf.
    destruct Hgood as (H1 & H2 & H3 & H4 & H5).
    repeat split; try assumption.
    + exact (criterion_fewer_errors _ _ _ H2 Hea).
    + exact (criterion_fewer_errors _ _ _ H3 Het).
    + exact (criterion_fewer_errors _ _ _ H4 Hef).
Qed.

Lemma fewer_errors_keep_good_witness :
  fewer_errors t1_fit (without_stderr t1_fit)
  ∧ (T1Analysis._evaluate_quality t1_analysis t1_fit = Ok "good" ->
     T1Analysis._evaluate_quality t1_analysis (without_stderr t1_fit) = Ok "good")
  ∧ (T2RamseyAnalysis._evaluate_quality t2_analysis t1_fit = Ok "good" ->
     T2RamseyAnalysis._evaluate_quality t2_analysis (without_stderr t1_fit) = Ok "good").
Proof.
  split; [apply fewer_errors_without_stderr|].
  exact (fewer_errors_keep_good t1_analysis t2_analysis t1_fit
           (without_stderr t1_fit) (fewer_errors_without_stderr t1_fit)).
Defined.

End QualityMonotone.

(** ** Further properties of the fit-guess preprocessing *)

Section FitGuessEdges.
Import curve QualitySpec Samples MoreSamples.

(** X6. The conversion factor is looked up before the guesses are: when the
    experiment options carry no "conversion_factor", [_generate_fit_guesses]
    of both analyses raises [KeyError] for it, whether or not the user
    supplied a tau guess, and the default guess generation is not reached. *)
Theorem generate_fit_guesses_missing_factor {R} (super : FitOptions -> R)
    (self : T1Analysis.t) (self' : T2RamseyAnalysis.t) (user_opt : FitOptions) :
  T1Analysis._experiment_options self !! "conversion_factor" = None ->
  T2RamseyAnalysis._experiment_options self' !! "conversion_factor" = None ->
  T1Analysis._generate_fit_guesses super self user_opt
    = Raise (KeyError "conversion_factor")
  ∧ T2RamseyAnalysis._generate_fit_guesses super self' user_opt
    = Raise (KeyError "conversion_factor").
Proof.
  intros H H'.
  unfold T1Analysis._generate_fit_guesses, T2RamseyAnalysis._generate_fit_guesses,
    getitem.
  rewrite H, H'. split; reflexivity.
Qed.

Lemma generate_fit_guesses_missing_factor_witness :
  T1Analysis._experiment_options t1_bare !! "conversion_factor" = None
  ∧ T2RamseyAnalysis._experiment_options t2_bare !! "conversion_factor" = None
  ∧ T1Analysis._generate_fit_guesses p0 t1_bare no_guess
    = Raise (KeyError "conversion_factor")
  ∧ T2RamseyAnalysis._generate_fit_guesses p0 t2_bare no_guess
    = Raise (KeyError "conversion_factor").
Proof.
  assert (H : T1Analysis._experiment_options t1_bare !! "conversion_factor" = None)
    by (vm_compute; reflexivity).
  assert (H' : T2RamseyAnalysis._experiment_options t2_bare !! "conversion_factor" = None)
    by (vm_compute; reflexivity).
  repeat (split; [assumption|]).
  exact (generate_fit_guesses_missing_factor p0 t1_bare t2_bare no_guess H H').
Defined.

(** X7. A conversion factor that is not a number matters only when there is
    a tau guess to scale: with a string as conversion factor,
    [_generate_fit_guesses] of both analyses raises [TypeError] when the user
    supplied a tau guess, and hands the user's options on unchanged when tau
    is unset. *)
Theorem generate_fit_guesses_text_factor {R} (super : FitOptions -> R)
    (self : T1Analysis.t) (self' : T2RamseyAnalysis.t) (user_opt : FitOptions)
    (text : string) (tau_guess : option float) :
  T1Analysis._experiment_options self !! "conversion_factor" = Some (PyStr text) ->
  T2RamseyAnalysis._experiment_options self' !! "conversion_factor" = Some (PyStr text) ->
  p0 user_opt !! "tau" = Some tau_guess ->
  T1Analysis._generate_fit_guesses super self user_opt
    = match tau_guess with
      | Some _ => Raise TypeError
      | None => Ok (super user_opt)
      end
  ∧ T2RamseyAnalysis._generate_fit_guesses super self' user_opt
    = match tau_guess with
      | Some _ => Raise TypeError
      | None => Ok (super user_opt)
      end.
Proof.
  intros H H' Htau.
  unfold T1Analysis._generate_fit_guesses, T2RamseyAnalysis._generate_fit_guesses,
    getitem.
  rewrite H, H'. cbn. rewrite Htau. cbn.
  destruct tau_guess; split; reflexivity.
Qed.

Lemma generate_fit_guesses_text_factor_witness :
  T1Analysis._experiment_options t1_text !! "conversion_factor" = Some (PyStr "2e-7")
  ∧ T2RamseyAnalysis._experiment_options t2_text !! "conversion_factor"
    = Some (PyStr "2e-7")
  ∧ p0 tau_only !! "tau" = Some (Some 125%float)
  ∧ T1Analysis._generate_fit_guesses p0 t1_text tau_only = Raise TypeError
  ∧ T2RamseyAnalysis._generate_fit_guesses p0 t2_text tau_only = Raise TypeError.
Proof.
  assert (H : T1Analysis._experiment_options t1_text !! "conversion_factor"
              = Some (PyStr "2e-7")) by (vm_compute; reflexivity).
  assert (H' : T2RamseyAnalysis._experiment_options t2_text !! "conversion_factor"
               = Some (PyStr "2e-7")) by (vm_compute; reflexivity).
  assert (Ht : p0 tau_only !! "tau" = Some (Some 125%float))
    by (vm_compute; reflexivity).
  repeat (split; [assumption|]).
  exact (generate_fit_guesses_text_factor p0 t1_text t2_text tau_only "2e-7"
           (Some 125%float) H H' Ht).
Defined.

(** X8. The scaling is applied on every call: preprocessing options that
    were already preprocessed multiplies the tau guess by the conversion
    factor a second time, and still leaves every other guess and the bounds
    as the user gave them. *)
Theorem generate_fit_guesses_twice {R} (super : FitOptions -> R)
    (self : T1Analysis.t) (self' : T2RamseyAnalysis.t) (user_opt : FitOptions)
    (conversion_factor tau : float) :
  T1Analysis._experiment_options self !! "conversion_factor"
    = Some (PyFloat conversion_factor) ->
  T2RamseyAnalysis._experiment_options self' !! "conversion_factor"
    = Some (PyFloat conversion_factor) ->
  p0 user_opt !! "tau" = Some (Some tau) ->
  ∃ once twice : FitOptions,
    T1Analysis._generate_fit_guesses (fun o => o) self user_opt = Ok once
    ∧ T2RamseyAnalysis._generate_fit_guesses (fun o => o) self' user_opt = Ok once
    ∧ T1Analysis._generate_fit_guesses super self once = Ok (super twice)
    ∧ T2RamseyAnalysis._generate_fit_guesses super self' once = Ok (super twice)
    ∧ p0 twice !! "tau" = Some (Some (tau * conversion_factor * conversion_factor)%float)
    ∧ (∀ key, key ≠ "tau" -> p0 twice !! key = p0 user_opt !! key)
    ∧ bounds twice = bounds user_opt.
Proof.
  intros Hcf Hcf' Htau.
  set (once := with_scaled_tau conversion_factor (Some tau) user_opt).
  assert (Honce : p0 once !! "tau" = Some (Some (tau * conversion_factor)%float))
    by apply lookup_insert_eq.
  exists once,
    (with_scaled_tau conversion_factor (Some (tau * conversion_factor)%float) once).
  repeat split.
  - now apply (T1_generate_fit_guesses_eq (fun o => o)).
  - now apply (T2_generate_fit_guesses_eq (fun o => o)).
  - now apply T1_generate_fit_guesses_eq.
  - now apply T2_generate_fit_guesses_eq.
  - apply lookup_insert_eq.
  - intros key Hne. cbn. now rewrite !lookup_insert_ne.
Qed.

Lemma generate_fit_guesses_twice_witness :
  T1Analysis._experiment_options t1_analysis !! "conversion_factor"
    = Some (PyFloat 2e-7)
  ∧ T2RamseyAnalysis._experiment_options t2_analysis !! "conversion_factor"
    = Some (PyFloat 2e-7)
  ∧ p0 tau_only !! "tau" = Some (Some 125%float)
  ∧ ∃ once twice : FitOptions,
    T1Analysis._generate_fit_guesses (fun o => o) t1_analysis tau_only = Ok once
    ∧ T2RamseyAnalysis._generate_fit_guesses (fun o => o) t2_analysis tau_only = Ok once
    ∧ T1Analysis._generate_fit_guesses bounds t1_analysis once = Ok (bounds twice)
    ∧ T2RamseyAnalysis._generate_fit_guesses bounds t2_analysis once = Ok (bounds twice)
    ∧ p0 twice !! "tau" = Some (Some (125 * 2e-7 * 2e-7)%float)
    ∧ (∀ key, key ≠ "tau" -> p0 twice !! key = p0 tau_only !! key)
    ∧ bounds twice = bounds tau_only.
Proof.
  assert (H1 : T1Analysis._experiment_options t1_analysis !! "conversion_factor"
               = Some (PyFloat 2e-7)) by (vm_compute; reflexivity).
  assert (H2 : T2RamseyAnalysis._experiment_options t2_analysis !! "conversion_factor"
               = Some (PyFloat 2e-7)) by (vm_compute; reflexivity).
  assert (H3 : p0 tau_only !! "tau" = Some (Some 125%float))
    by (vm_compute; reflexivity).
  repeat (split; [assumption|]).
  exact (generate_fit_guesses_twice bounds t1_analysis t2_analysis tau_only
           2e-7%float 125%float H1 H2 H3).
Defined.

End FitGuessEdges.

(** ** Further properties of the half-angle circuits *)

Section HalfAngleEdges.
Import QuantumCircuit HalfAngle HalfAngleSpec HalfAngleGates Samples.




Lemma circuits_lookup self i n :
  repetitions (experiment_options self) !! i = Some n ->
  circuits self !! i = Some (scan_circuit (_type self) (physical_qubits self) n).
Proof. intros Hi. now rewrite circuits_scan_circuits, list_lookup_fmap, Hi. Qed.

Lemma circuits_elem self c :
  c ∈ circuits self ->
  ∃ n, n ∈ repetitions (experiment_options self)
       ∧ c = scan_circuit (_type self) (physical_qubits self) n.
Proof.
  rewrite circuits_scan_circuits. intros Hc.
  apply list_elem_of_fmap in Hc as (n & -> & Hn). eauto.
Qed.



(** X10. A repetition count that is zero or negative gives the circuit
    without any amplification block: the preparation followed directly by
    the final sx and the measurement.  Its metadata still records the count
    as [xval]. *)
Theorem nonpositive_repetition_no_block (self : HalfAngle.t) (i : nat) (n : Z) :
  repetitions (experiment_options self) !! i = Some n ->
  (n <= 0)%Z ->
  ∃ circuit : QuantumCircuit.t,
    circuits self !! i = Some circuit
    ∧ data circuit
      = [Rz (np.pi / 2)%float 0; SX 0; Rz (- np.pi / 2)%float 0; SX 0; MeasureAll]
    ∧ metadata circuit !! "xval" = Some (MInt n).
Proof.
  intros Hi Hn. eexists. split; [apply circuits_lookup; exact Hi|].
  unfold scan_circuit, sequence. cbn [data metadata].
  replace (Z.to_nat n) with 0%nat by lia. split; [reflexivity|].
  unfold scan_metadata. by simplify_map_eq.
Qed.

Lemma nonpositive_repetition_no_block_witness :
  repetitions (experiment_options half_angle) !! 0%nat = Some 0%Z
  ∧ (0 <= 0)%Z
  ∧ ∃ circuit : QuantumCircuit.t,
      circuits half_angle !! 0%nat = Some circuit
      ∧ data circuit
        = [Rz (np.pi / 2)%float 0; SX 0; Rz (- np.pi / 2)%float 0; SX 0; MeasureAll]
      ∧ metadata circuit !! "xval" = Some (MInt 0).
Proof.
  assert (Hi : repetitions (experiment_options half_angle) !! 0%nat = Some 0%Z)
    by reflexivity.
  assert (Hn : (0 <= 0)%Z) by lia.
  repeat (split; [assumption|]).
  exact (nonpositive_repetition_no_block half_angle 0 0 Hi Hn).
Defined.

Lemma Forall_blocks (P : Instruction -> Prop) (k : nat) :
  Forall P block -> Forall P (mjoin (replicate k block)).
Proof.
  intros HP. induction k as [|k IH]; [constructor|].
  change (mjoin (replicate (S k) block)) with (block ++ mjoin (replicate k block)).
  now apply Forall_app.
Qed.

Lemma is_basis_gate_rz theta : is_basis_gate (Rz theta 0).
Proof. exists "rz". cbn. tauto. Qed.

Lemma is_basis_gate_sx : is_basis_gate (SX 0).
Proof. exists "sx". cbn. tauto. Qed.

Lemma is_basis_gate_y : is_basis_gate (Y 0).
Proof. exists "y". cbn. tauto. Qed.

(** X11. Every generated circuit is a sequence of gates followed by the
    measurement as its last instruction, and each of the gates is one of the
    basis gates of the default transpile options (sx, rz, y), applied to
    qubit 0. *)
Theorem circuits_use_basis_gates (self : HalfAngle.t) (circuit : QuantumCircuit.t) :
  circuit ∈ circuits self ->
  ∃ gates : list Instruction,
    data circuit = gates ++ [MeasureAll]
    ∧ Forall is_basis_gate gates.
Proof.
  intros Hc. apply circuits_elem in Hc as (n & _ & ->).
  exists (prefix ++ mjoin (replicate (Z.to_nat n) block) ++ [SX 0]). split.
  - unfold scan_circuit, sequence, suffix. cbn [data].
    now rewrite <- !app_assoc.
  - rewrite !Forall_app. repeat split.
    + repeat constructor; auto using is_basis_gate_rz, is_basis_gate_sx.
    + apply Forall_blocks.
      repeat constructor; auto using is_basis_gate_sx, is_basis_gate_y.
    + repeat constructor; auto using is_basis_gate_sx.
Qed.

Lemma circuits_use_basis_gates_witness :
  scan_circuit "HalfAngle" [0%Z] 2 ∈ circuits half_angle
  ∧ ∃ gates : list Instruction,
      data (scan_circuit "HalfAngle" [0%Z] 2) = gates ++ [MeasureAll]
      ∧ Forall is_basis_gate gates.
Proof.
  assert (Hc : scan_circuit "HalfAngle" [0%Z] 2 ∈ circuits half_angle).
  { apply (list_elem_of_lookup_2 _ 2%nat).
    now rewrite (circuits_lookup half_angle 2 2 eq_refl). }
  split; [exact Hc|].
  exact (circuits_use_basis_gates half_angle _ Hc).
Defined.

(** X12. Every generated circuit can be rebuilt from its metadata: it is a
    one-qubit circuit whose [xval] is one of the repetition counts and whose
    gate sequence is the one for that count, and its metadata has the four
    keys experiment_type, qubits, xval and unit and no other. *)
Theorem circuit_determined_by_xval (self : HalfAngle.t) (circuit : QuantumCircuit.t) :
  circuit ∈ circuits self ->
  ∃ n : Z,
    n ∈ repetitions (experiment_options self)
    ∧ metadata circuit !! "xval" = Some (MInt n)
    ∧ data circuit = sequence (Z.to_nat n)
    ∧ num_qubits circuit = 1%Z
    ∧ dom (metadata circuit)
      = ({[ "experiment_type"; "qubits"; "xval"; "unit" ]} : gset string).
Proof.
  intros Hc. apply circuits_elem in Hc as (n & Hn & ->).
  exists n. split; [exact Hn|].
  cbn [scan_circuit data metadata num_qubits]. unfold scan_metadata.
  split; [by simplify_map_eq|]. repeat split.
Qed.

Lemma circuit_determined_by_xval_witness :
  scan_circuit "HalfAngle" [0%Z] 2 ∈ circuits half_angle
  ∧ ∃ n : Z,
    n ∈ repetitions (experiment_options half_angle)
    ∧ metadata (scan_circuit "HalfAngle" [0%Z] 2) !! "xval" = Some (MInt n)
    ∧ data (scan_circuit "HalfAngle" [0%Z] 2) = sequence (Z.to_nat n)
    ∧ num_qubits (scan_circuit "HalfAngle" [0%Z] 2) = 1%Z
    ∧ dom (metadata (scan_circuit "HalfAngle" [0%Z] 2))
      = ({[ "experiment_type"; "qubits"; "xval"; "unit" ]} : gset string).
Proof.
  assert (Hc : scan_circuit "HalfAngle" [0%Z] 2 ∈ circuits half_angle).
  { apply (list_elem_of_lookup_2 _ 2%nat).
    now rewrite (circuits_lookup half_angle 2 2 eq_refl). }
  split; [exact Hc|].
  exact (circuit_determined_by_xval half_angle _ Hc).
Defined.

(** X13. An experiment as the constructor leaves it scans the repetition
    counts 0 to 14: it generates fifteen circuits, the [i]-th one with [i]
    amplification blocks and [xval = i], on the qubit it was built for. *)
Theorem default_scan (qubit : Z) (_type : string) (i : nat) :
  (i < 15)%nat ->
  length (circuits (HalfAngle.__init__ qubit _type)) = 15%nat
  ∧ circuits (HalfAngle.__init__ qubit _type) !! i
    = Some (scan_circuit _type [qubit] (Z.of_nat i)).
Proof.
  intros Hi. rewrite circuits_scan_circuits.
  cbn [HalfAngle.__init__ HalfAngle._type physical_qubits experiment_options
       _default_experiment_options repetitions].
  set (scan := range 15). vm_compute in scan. subst scan.
  split; [reflexivity|].
  do 15 (destruct i as [|i]; [reflexivity|]). lia.
Qed.

Lemma default_scan_witness :
  (7 < 15)%nat
  ∧ length (circuits (HalfAngle.__init__ 3 "HalfAngle")) = 15%nat
  ∧ circuits (HalfAngle.__init__ 3 "HalfAngle") !! 7%nat
    = Some (scan_circuit "HalfAngle" [3%Z] (Z.of_nat 7)).
Proof.
  assert (Hi : (7 < 15)%nat) by lia.
  split; [exact Hi|].
  exact (default_scan 3 "HalfAngle" 7 Hi).
Defined.

End HalfAngleEdges.

(** ** Further properties of the frequency calibration *)

Section FrequencyCalEdges.
Import framework FrequencyCal FrequencyCalSpec Samples MoreSamples.

(** The metadata after a successful echo. *)
Lemma add_cal_metadata_ok self d cals current :
  fst (get_parameter_value (_param_name self) (physical_qubits self)
         (group (experiment_options self)) cals) = Ok current ->
  _add_cal_metadata self d cals
  = (Ok (set_metadata
           (<["osc_freq" := PyFloat (osc_freq (experiment_options self))]>
              (<["cal_group" := PyStr (group (experiment_options self))]>
                 (<["cal_param_value" := current]> (metadata d))))
           d),
     cals).
Proof.
  unfold _add_cal_metadata, mbind, CalM_bind, cal_bind, get_parameter_value.
  cbn [fst]. destruct (last _) as [e|]; [|discriminate].
  intros [= <-]. reflexivity.
Qed.

Lemma add_cal_metadata_inv self d d1 cals cals1 :
  _add_cal_metadata self d cals = (Ok d1, cals1) ->
  ∃ current,
    fst (get_parameter_value (_param_name self) (physical_qubits self)
           (group (experiment_options self)) cals) = Ok current.
Proof.
  unfold _add_cal_metadata, mbind, CalM_bind, cal_bind, get_parameter_value.
  cbn [fst]. destruct (last _) as [e|]; [|discriminate]. eauto.
Qed.

(** The entry committed from numeric metadata. *)
Lemma new_entry_numbers self d (osc old fit : float) (grp : pyval) :
  metadata d !! "osc_freq" = Some (PyFloat osc) ->
  metadata d !! "cal_group" = Some grp ->
  metadata d !! "cal_param_value" = Some (PyFloat old) ->
  BaseUpdater.get_value d "freq" (result_index (experiment_options self)) = Ok fit ->
  new_entry self d
  = Ok {| pv_param := _param_name self;
          pv_qubits := qubits d;
          pv_group := grp;
          pv_value := PyFloat (old + fit - osc)%float;
          pv_exp_id := experiment_id d |}.
Proof.
  intros Hosc Hgrp Hold Hfit. unfold new_entry, getitem.
  rewrite Hosc. cbn. rewrite Hgrp. cbn. rewrite Hold. cbn.
  rewrite Hfit. reflexivity.
Qed.

(** X14. Echoing the metadata and then updating compose: when the store's
    current value of the experiment's parameter is the number [old] and the
    experiment data holds a fitted frequency, [_add_cal_metadata] followed
    by [update_calibrations] appends the value [old + fit - osc_freq], with
    [osc_freq] and the group taken from the experiment options. *)
Theorem echo_then_update (self : FrequencyCal.t) (d : ExperimentData)
    (cals : list ParameterValue) (old fit : float) :
  fst (get_parameter_value (_param_name self) (physical_qubits self)
         (group (experiment_options self)) cals) = Ok (PyFloat old) ->
  BaseUpdater.get_value d "freq" (result_index (experiment_options self)) = Ok fit ->
  ∃ d1 : ExperimentData,
    _add_cal_metadata self d cals = (Ok d1, cals)
    ∧ update_calibrations self d1 cals
      = (Ok tt,
         cals ++ [ {| pv_param := _param_name self;
                      pv_qubits := qubits d;
                      pv_group := PyStr (group (experiment_options self));
                      pv_value :=
                        PyFloat (old + fit - osc_freq (experiment_options self))%float;
                      pv_exp_id := experiment_id d |} ]).
Proof.
  intros Hold Hfit. eexists. split; [apply add_cal_metadata_ok; exact Hold|].
  rewrite update_calibrations_new_entry.
  erewrite new_entry_numbers; [reflexivity| | | |exact Hfit];
    cbn [set_metadata metadata]; by simplify_map_eq.
Qed.

Lemma echo_then_update_witness :
  fst (get_parameter_value (_param_name freq_cal) (physical_qubits freq_cal)
         (group (experiment_options freq_cal)) store) = Ok (PyFloat 5e9)
  ∧ BaseUpdater.get_value fitted_data "freq"
      (result_index (experiment_options freq_cal)) = Ok 2.1e6%float
  ∧ ∃ d1 : ExperimentData,
      _add_cal_metadata freq_cal fitted_data store = (Ok d1, store)
      ∧ update_calibrations freq_cal d1 store
        = (Ok tt,
           store ++ [ {| pv_param := _param_name freq_cal;
                         pv_qubits := qubits fitted_data;
                         pv_group := PyStr (group (experiment_options freq_cal));
                         pv_value :=
                           PyFloat (5e9 + 2.1e6 - osc_freq (experiment_options freq_cal))%float;
                         pv_exp_id := experiment_id fitted_data |} ]).
Proof.
  assert (H1 : fst (get_parameter_value (_param_name freq_cal)
                      (physical_qubits freq_cal)
                      (group (experiment_options freq_cal)) store)
               = Ok (PyFloat 5e9)) by (vm_compute; reflexivity).
  assert (H2 : BaseUpdater.get_value fitted_data "freq"
                 (result_index (experiment_options freq_cal)) = Ok 2.1e6%float)
    by (vm_compute; reflexivity).
  repeat (split; [assumption|]).
  exact (echo_then_update freq_cal fitted_data store 5e9%float 2.1e6%float H1 H2).
Defined.

(** X15. A successful echo records the state at the time of the echo,
    whatever the three keys held before: the store's current value of the
    parameter, the group and the oscillation frequency of the experiment
    options.  Echoing again into the result changes nothing. *)
Theorem add_cal_metadata_idempotent (self : FrequencyCal.t)
    (d d1 : ExperimentData) (cals cals1 : list ParameterValue) :
  _add_cal_metadata self d cals = (Ok d1, cals1) ->
  cals1 = cals
  ∧ getitem (metadata d1) "cal_param_value"
    = fst (get_parameter_value (_param_name self) (physical_qubits self)
             (group (experiment_options self)) cals)
  ∧ metadata d1 !! "cal_group" = Some (PyStr (group (experiment_options self)))
  ∧ metadata d1 !! "osc_freq" = Some (PyFloat (osc_freq (experiment_options self)))
  ∧ _add_cal_metadata self d1 cals = (Ok d1, cals).
Proof.
  intros Hecho.
  destruct (add_cal_metadata_inv _ _ _ _ _ Hecho) as (current & Hcur).
  rewrite (add_cal_metadata_ok self d cals current Hcur) in Hecho.
  injection Hecho as <- <-. split; [reflexivity|].
  rewrite Hcur. cbn [set_metadata metadata]. unfold getitem.
  split; [by simplify_map_eq|]. split; [by simplify_map_eq|].
  split; [by simplify_map_eq|].
  rewrite (add_cal_metadata_ok self _ cals current Hcur).
  unfold set_metadata. cbn [metadata experiment_id qubits analysis_results].
  do 2 f_equal. f_equal. apply map_eq. intros key.
  rewrite !lookup_insert. repeat case_decide; reflexivity.
Qed.

Lemma add_cal_metadata_idempotent_witness :
  _add_cal_metadata freq_cal cal_data_text_value store = (Ok echoed_data, store)
  ∧ store = store
  ∧ getitem (metadata echoed_data) "cal_param_value"
    = fst (get_parameter_value (_param_name freq_cal) (physical_qubits freq_cal)
             (group (experiment_options freq_cal)) store)
  ∧ metadata echoed_data !! "cal_group"
    = Some (PyStr (group (experiment_options freq_cal)))
  ∧ metadata echoed_data !! "osc_freq"
    = Some (PyFloat (osc_freq (experiment_options freq_cal)))
  ∧ _add_cal_metadata freq_cal echoed_data store = (Ok echoed_data, store).
Proof.
  assert (H : _add_cal_metadata freq_cal cal_data_text_value store
              = (Ok echoed_data, store)) by (vm_compute; reflexivity).
  split; [exact H|].
  exact (add_cal_metadata_idempotent freq_cal cal_data_text_value echoed_data
           store store H).
Defined.

(** X16. Old values and offsets that are not numbers are rejected before
    anything is written: when the metadata holds the three keys and a fitted
    frequency is available, but the old value or the oscillation frequency
    is a string, [update_calibrations] raises [TypeError] and leaves the
    store as it was. *)
Theorem update_calibrations_text_value (self : FrequencyCal.t)
    (experiment_data : ExperimentData) (cals : list ParameterValue)
    (old_value cal_group applied_offset : pyval) (fitted_frequency : float) :
  metadata experiment_data !! "cal_param_value" = Some old_value ->
  metadata experiment_data !! "cal_group" = Some cal_group ->
  metadata experiment_data !! "osc_freq" = Some applied_offset ->
  BaseUpdater.get_value experiment_data "freq"
    (result_index (experiment_options self)) = Ok fitted_frequency ->
  (∃ text, old_value = PyStr text) ∨ (∃ text, applied_offset = PyStr text) ->
  update_calibrations self experiment_data cals = (Raise TypeError, cals).
Proof.
  intros Hold Hgroup Hosc Hfit Htext.
  rewrite update_calibrations_new_entry. unfold new_entry, getitem.
  rewrite Hosc. cbn. rewrite Hgroup. cbn. rewrite Hold. cbn. rewrite Hfit. cbn.
  destruct Htext as [[text ->] | [text ->]]; [reflexivity|].
  destruct old_value; reflexivity.
Qed.

Lemma update_calibrations_text_value_witness :
  metadata cal_data_text_value !! "cal_param_value" = Some (PyStr "5e9")
  ∧ metadata cal_data_text_value !! "cal_group" = Some (PyStr "default")
  ∧ metadata cal_data_text_value !! "osc_freq" = Some (PyFloat 2e6)
  ∧ BaseUpdater.get_value cal_data_text_value "freq"
      (result_index (experiment_options freq_cal)) = Ok 2.1e6%float
  ∧ ((∃ text, PyStr "5e9" = PyStr text) ∨ (∃ text, PyFloat 2e6 = PyStr text))
  ∧ update_calibrations freq_cal cal_data_text_value store = (Raise TypeError, store).
Proof.
  assert (H1 : metadata cal_data_text_value !! "cal_param_value" = Some (PyStr "5e9"))
    by (vm_compute; reflexivity).
  assert (H2 : metadata cal_data_text_value !! "cal_group" = Some (PyStr "default"))
    by (vm_compute; reflexivity).
  assert (H3 : metadata cal_data_text_value !! "osc_freq" = Some (PyFloat 2e6))
    by (vm_compute; reflexivity).
  assert (H4 : BaseUpdater.get_value cal_data_text_value "freq"
                 (result_index (experiment_options freq_cal)) = Ok 2.1e6%float)
    by (vm_compute; reflexivity).
  assert (H5 : (∃ text, PyStr "5e9" = PyStr text) ∨ (∃ text, PyFloat 2e6 = PyStr text))
    by (left; exists "5e9"; reflexivity).
  repeat (split; [assumption|]).
  exact (update_calibrations_text_value freq_cal cal_data_text_value store
           _ _ _ _ H1 H2 H3 H4 H5).
Defined.

(** The fields of a committed entry. *)
Lemma new_entry_fields self d e :
  new_entry self d = Ok e ->
  pv_param e = _param_name self
  ∧ pv_qubits e = qubits d
  ∧ pv_exp_id e = experiment_id d
  ∧ metadata d !! "cal_group" = Some (pv_group e).
Proof.
  unfold new_entry, getitem.
  destruct (metadata d !! "osc_freq") as [osc|]; cbn; [|discriminate].
  destruct (metadata d !! "cal_group") as [grp|]; cbn; [|discriminate].
  destruct (metadata d !! "cal_param_value") as [old|]; cbn; [|discriminate].
  destruct (BaseUpdater.get_value d "freq" _) as [fit|]; cbn; [|discriminate].
  destruct (py_add old (PyFloat fit)) as [sum|]; cbn; [|discriminate].
  destruct (py_sub sum osc) as [new|]; cbn; [|discriminate].
  intros [= <-]. cbn. auto.
Qed.

Lemma is_entry_other param qubits group e :
  param ≠ pv_param e ∨ qubits ≠ pv_qubits e ∨ pv_group e ≠ PyStr group ->
  is_entry param qubits group e = false.
Proof.
  unfold is_entry. intros [H | [H | H]].
  - apply String.eqb_neq in H. rewrite String.eqb_sym, H. reflexivity.
  - rewrite bool_decide_eq_false_2 by congruence.
    now rewrite andb_false_r.
  - destruct (pv_group e) as [f|g]; [apply andb_false_r|].
    assert (Hg : g ≠ group) by congruence.
    apply String.eqb_neq in Hg. rewrite Hg. apply andb_false_r.
Qed.

(** X17. [update_calibrations] is all or nothing and touches one key only.
    Either it succeeds and exactly one entry is appended, for the
    experiment's parameter, on the qubits and under the identity of the
    experiment data, in the group named by its metadata; or it raises and the
    store is as it was.  In both cases the current value of every other
    (parameter, qubits, group) key is what it was before. *)
Theorem update_calibrations_append_only (self : FrequencyCal.t)
    (experiment_data : ExperimentData) (cals : list ParameterValue) :
  ((∃ e, update_calibrations self experiment_data cals = (Ok tt, cals ++ [e])
         ∧ pv_param e = _param_name self
         ∧ pv_qubits e = qubits experiment_data
         ∧ pv_exp_id e = experiment_id experiment_data
         ∧ metadata experiment_data !! "cal_group" = Some (pv_group e))
   ∨ (∃ x, update_calibrations self experiment_data cals = (Raise x, cals)))
  ∧ ∀ param qubits' group,
      param ≠ _param_name self
      ∨ qubits' ≠ qubits experiment_data
      ∨ metadata experiment_data !! "cal_group" ≠ Some (PyStr group) ->
      fst (get_parameter_value param qubits' group
             (snd (update_calibrations self experiment_data cals)))
      = fst (get_parameter_value param qubits' group cals).
Proof.
  rewrite update_calibrations_new_entry.
  destruct (new_entry self experiment_data) as [e|x] eqn:He.
  - destruct (new_entry_fields _ _ _ He) as (Hp & Hq & Hid & Hg). split.
    + left. exists e. auto.
    + intros param qubits' group Hother. cbn [snd].
      unfold get_parameter_value. cbn [fst].
      rewrite List.filter_app. cbn [List.filter].
      rewrite is_entry_other, app_nil_r; [reflexivity|].
      rewrite Hp, Hq. destruct Hother as [H | [H | H]]; auto.
      right. right. congruence.
  - split; [right; eauto|]. reflexivity.
Qed.

(** X18. Updating twice from the same experiment data commits the same
    value twice: the second update appends a copy of the first entry, not a
    value shifted a second time. *)
Theorem update_calibrations_twice (self : FrequencyCal.t)
    (experiment_data : ExperimentData) (cals cals1 : list ParameterValue) :
  update_calibrations self experiment_data cals = (Ok tt, cals1) ->
  ∃ e, cals1 = cals ++ [e]
       ∧ update_calibrations self experiment_data cals1 = (Ok tt, cals ++ [e; e]).
Proof.
  rewrite !update_calibrations_new_entry.
  destruct (new_entry self experiment_data) as [e|x]; [|discriminate].
  intros [= <-]. exists e. split; [reflexivity|].
  now rewrite <- app_assoc.
Qed.

Lemma update_calibrations_twice_witness :
  update_calibrations freq_cal cal_data store
  = (Ok tt, store ++ [ {| pv_param := "qubit_lo_freq";
                          pv_qubits := [0%Z];
                          pv_group := PyStr "default";
                          pv_value := PyFloat 5000100000;
                          pv_exp_id := "exp-1" |} ])
  ∧ ∃ e, store ++ [ {| pv_param := "qubit_lo_freq";
                       pv_qubits := [0%Z];
                       pv_group := PyStr "default";
                       pv_value := PyFloat 5000100000;
                       pv_exp_id := "exp-1" |} ] = store ++ [e]
         ∧ update_calibrations freq_cal cal_data
             (store ++ [ {| pv_param := "qubit_lo_freq";
                            pv_qubits := [0%Z];
                            pv_group := PyStr "default";
                            pv_value := PyFloat 5000100000;
                            pv_exp_id := "exp-1" |} ])
           = (Ok tt, store ++ [e; e]).
Proof.
  assert (H : update_calibrations freq_cal cal_data store
              = (Ok tt, store ++ [ {| pv_param := "qubit_lo_freq";
                                      pv_qubits := [0%Z];
                                      pv_group := PyStr "default";
                                      pv_value := PyFloat 5000100000;
                                      pv_exp_id := "exp-1" |} ]))
    by (vm_compute; reflexivity).
  split; [exact H|].
  exact (update_calibrations_twice freq_cal cal_data store _ H).
Defined.

(** X20. A calibration built by the constructor targets the parameter
    "qubit_lo_freq" of its qubit and uses the oscillation frequency it was
    given: when the store's current qubit frequency is the number [old] and
    the experiment data of that qubit holds a fitted frequency, echoing and
    updating make [old + fit - osc_freq] the current qubit frequency, in the
    group of the default options. *)
Theorem init_then_calibrate (defaults : FrequencyCal.ExperimentOptions)
    (qubit : Z) (delays : option (list float)) (unit : string)
    (osc_freq : float) (auto_update : bool)
    (d : ExperimentData) (cals : list ParameterValue) (old fit : float) :
  qubits d = [qubit] ->
  fst (get_parameter_value "qubit_lo_freq" [qubit] (group defaults) cals)
    = Ok (PyFloat old) ->
  BaseUpdater.get_value d "freq" (result_index defaults) = Ok fit ->
  let self := FrequencyCal.__init__ defaults qubit delays unit osc_freq auto_update in
  ∃ (d1 : ExperimentData) (cals1 : list ParameterValue),
    _add_cal_metadata self d cals = (Ok d1, cals)
    ∧ update_calibrations self d1 cals = (Ok tt, cals1)
    ∧ fst (get_parameter_value "qubit_lo_freq" [qubit] (group defaults) cals1)
      = Ok (PyFloat (old + fit - osc_freq)%float).
Proof.
  intros Hq Hold Hfit self.
  eexists _, _. split; [apply add_cal_metadata_ok; exact Hold|].
  rewrite update_calibrations_new_entry.
  erewrite new_entry_numbers; [| | | |exact Hfit];
    [|cbn [set_metadata metadata]; by simplify_map_eq ..].
  split; [reflexivity|].
  rewrite get_parameter_value_snoc; [reflexivity|].
  unfold is_entry. cbn. rewrite Hq.
  rewrite !String.eqb_refl, bool_decide_eq_true_2; reflexivity.
Qed.

Lemma init_then_calibrate_witness :
  qubits fitted_data = [0%Z]
  ∧ fst (get_parameter_value "qubit_lo_freq" [0%Z] (group cal_defaults) store)
    = Ok (PyFloat 5e9)
  ∧ BaseUpdater.get_value fitted_data "freq" (result_index cal_defaults)
    = Ok 2.1e6%float
  ∧ let self := FrequencyCal.__init__ cal_defaults 0 None "s" 2e6 true in
    ∃ (d1 : ExperimentData) (cals1 : list ParameterValue),
      _add_cal_metadata self fitted_data store = (Ok d1, store)
      ∧ update_calibrations self d1 store = (Ok tt, cals1)
      ∧ fst (get_parameter_value "qubit_lo_freq" [0%Z] (group cal_defaults) cals1)
        = Ok (PyFloat (5e9 + 2.1e6 - 2e6)%float).
Proof.
  assert (H1 : qubits fitted_data = [0%Z]) by reflexivity.
  assert (H2 : fst (get_parameter_value "qubit_lo_freq" [0%Z]
                      (group cal_defaults) store) = Ok (PyFloat 5e9))
    by (vm_compute; reflexivity).
  assert (H3 : BaseUpdater.get_value fitted_data "freq" (result_index cal_defaults)
               = Ok 2.1e6%float) by (vm_compute; reflexivity).
  repeat (split; [assumption|]).
  exact (init_then_calibrate cal_defaults 0 None "s" 2e6%float true
           fitted_data store 5e9%float 2.1e6%float H1 H2 H3).
Defined.

End FrequencyCalEdges.

(** ** The job count expected by the framework test *)

Section JobSplitting.
Import test_framework.

(** X19. For a backend limit [max_experiments > 0] and [num_circuits >= 0]
    circuits, the job count the test expects is the least number of jobs of
    at most [max_experiments] circuits that holds all circuits; without a
    limit it is one job. *)
Theorem expected_num_jobs_ceiling (max_experiments num_circuits : Z) :
  (0 < max_experiments)%Z ->
  (0 <= num_circuits)%Z ->
  expected_num_jobs None num_circuits = Some 1%Z
  ∧ ∃ num_jobs : Z,
      expected_num_jobs (Some max_experiments) num_circuits = Some num_jobs
      ∧ (num_circuits <= num_jobs * max_experiments)%Z
      ∧ ((num_jobs - 1) * max_experiments < num_circuits)%Z.
Proof.
  intros Hm Hn. split; [reflexivity|]. unfold expected_num_jobs.
  destruct (Z.eqb_spec max_experiments 0) as [|_]; [lia|].
  pose proof (Z.div_mod num_circuits max_experiments ltac:(lia)) as Hdiv.
  pose proof (Z.mod_pos_bound num_circuits max_experiments Hm) as Hmod.
  destruct (Z.eqb_spec (num_circuits mod max_experiments) 0) as [Hz|Hz];
    eexists; (split; [reflexivity|]); nia.
Qed.

Lemma expected_num_jobs_ceiling_witness :
  (0 < 3)%Z
  ∧ (0 <= 10)%Z
  ∧ expected_num_jobs None 10 = Some 1%Z
  ∧ ∃ num_jobs : Z,
      expected_num_jobs (Some 3%Z) 10 = Some num_jobs
      ∧ (10 <= num_jobs * 3)%Z
      ∧ ((num_jobs - 1) * 3 < 10)%Z.
Proof.
  assert (Hm : (0 < 3)%Z) by lia.
  assert (Hn : (0 <= 10)%Z) by lia.
  repeat (split; [assumption|]).
  exact (expected_num_jobs_ceiling 3 10 Hm Hn).
Defined.

End JobSplitting.
